(** * CryptoTechAnalyzer: the caching proxy of the Express server

    A shallow embedding of the server file (rate limiter, the three
    cache-first route handlers and the candlestick transform of the history
    endpoint), with the properties its specification states about them. *)

From Stdlib Require Import ZArith QArith Qminmax String Ascii List Lia.
From stdpp Require Import gmap strings pretty list fin_maps sorting.

Local Open Scope string_scope.
Local Open Scope list_scope.
Local Open Scope Z_scope.

Set Warnings "-register-all".

(** ** JavaScript values that travel through the proxy *)

(** JSON payloads as [axios] hands them over and as [res.json] sends them.
    A JSON number is a finite double, hence a rational. *)
Inductive json : Type :=
  | JNull
  | JBool (b : bool)
  | JNum (q : Q)
  | JStr (s : string)
  | JArr (items : list json)
  | JObj (fields : list (string * json)).

Definition Q_is_zero (q : Q) : bool := (Qnum q =? 0)%Z.

(** ToBoolean on a JSON value: [null], [false], [0] and the empty string
    are falsy, every array and object (also an empty one) is truthy. *)
Definition truthy (v : json) : bool :=
  match v with
  | JNull => false
  | JBool b => b
  | JNum q => negb (Q_is_zero q)
  | JStr s => negb (String.eqb s "")
  | JArr _ => true
  | JObj _ => true
  end.

(** ToBoolean on [value | undefined]. *)
Definition truthy_opt (v : option json) : bool :=
  match v with
  | Some j => truthy j
  | None => false
  end.

(** [error.response] of an axios error: the upstream status and payload. *)
Record http_response : Type := mkHttpResponse {
  status : Z;
  data : json
}.

(** A thrown value as the [catch] blocks read it: [error.response] is only
    set on axios errors for which the upstream answered. *)
Record js_error : Type := mkError {
  name : string;
  response : option http_response;
  message : string
}.

(** Completion of a computation that may throw. *)
Inductive completion (A : Type) : Type :=
  | Normal (a : A)
  | Throw (e : js_error).
Arguments Normal {A} a.
Arguments Throw {A} e.

(** The TypeError of [volumes[i][1]] when [volumes[i]] is [undefined]. *)
Definition TypeError_undefined : js_error :=
  mkError "TypeError" None "Cannot read properties of undefined (reading '1')".

(** The TypeError of [prices[i][0]] when [prices[i]] is [undefined]. *)
Definition TypeError_undefined0 : js_error :=
  mkError "TypeError" None "Cannot read properties of undefined (reading '0')".

(** The RangeError of [toISOString] on an invalid date. *)
Definition RangeError_time : js_error :=
  mkError "RangeError" None "Invalid time value".

(** ** [new Date(ms).toISOString().split('T')[0]] *)

Module DateTime.

Definition msPerDay : Z := 86400000.

(** Time values outside of +-8.64e15 ms make an invalid date. *)
Definition maxTime : Z := 8640000000000000.

Definition validTime (t : Z) : bool := (- maxTime <=? t) && (t <=? maxTime).

Definition Day (t : Z) : Z := t / msPerDay.
Definition TimeWithinDay (t : Z) : Z := t mod msPerDay.

(** Gregorian year, month (1..12) and day of month (1..31) of a day
    number counted from 1970-01-01. *)
Definition civil (days : Z) : Z * Z * Z :=
  let z := days + 719468 in
  let era := z / 146097 in
  let doe := z - era * 146097 in
  let yoe := (doe - doe / 1460 + doe / 36524 - doe / 146096) / 365 in
  let y := yoe + era * 400 in
  let doy := doe - (365 * yoe + yoe / 4 - yoe / 100) in
  let mp := (5 * doy + 2) / 153 in
  let d := doy - (153 * mp + 2) / 5 + 1 in
  let m := if mp <? 10 then mp + 3 else mp - 9 in
  (if m <=? 2 then y + 1 else y, m, d).

Definition digit (n : Z) : ascii := ascii_of_nat (48 + Z.to_nat (n mod 10)).

(** The last [width] decimal digits of [n], zero padded. *)
Fixpoint pad (width : nat) (n : Z) : string :=
  match width with
  | O => ""
  | S w => pad w (n / 10) +:+ String (digit n) ""
  end.

(** Four digits for the years 0..9999, a sign and six digits otherwise. *)
Definition isoYear (y : Z) : string :=
  if (0 <=? y) && (y <=? 9999) then pad 4 y
  else (if y <? 0 then "-" else "+") +:+ pad 6 (Z.abs y).

(** [Date.prototype.toISOString]; [None] stands for the RangeError. *)
Definition toISOString (t : Z) : option string :=
  if validTime t then
    let '(y, m, d) := civil (Day t) in
    let ms := TimeWithinDay t in
    Some (isoYear y +:+ "-" +:+ pad 2 m +:+ "-" +:+ pad 2 d +:+ "T"
          +:+ pad 2 (ms / 3600000) +:+ ":" +:+ pad 2 (ms / 60000 mod 60) +:+ ":"
          +:+ pad 2 (ms / 1000 mod 60) +:+ "." +:+ pad 3 (ms mod 1000) +:+ "Z")
  else None.

(** The date part of the ISO string for a day number. *)
Definition isoDay (days : Z) : string :=
  let '(y, m, d) := civil days in
  isoYear y +:+ "-" +:+ pad 2 m +:+ "-" +:+ pad 2 d.

(** [s.split(sep)[0]]: the part of [s] before the first [sep]. *)
Fixpoint split0 (sep : ascii) (s : string) : string :=
  match s with
  | EmptyString => ""
  | String c rest => if Ascii.eqb c sep then "" else String c (split0 sep rest)
  end.

(** The [timestamp] of the transform loop. *)
Definition isoDate (t : Z) : option string :=
  split0 "T"%char <$> toISOString t.

End DateTime.

(** ** The candlestick transform of the history endpoint *)

Module Candlestick.

(** One element of [candlestickData]. *)
Record point : Type := mkPoint {
  time : string;
  open : Q;
  high : Q;
  low : Q;
  close : Q;
  volume : Q
}.

(** [response.data] of [/coins/:id/market_chart]: two series of
    [[timestamp, value]] pairs, the timestamps in integer milliseconds. *)
Record market_chart : Type := mkChart {
  prices : list (Z * Q);
  total_volumes : list (Z * Q)
}.

(** [Math.max] and [Math.min] on two finite numbers. *)
Definition Math_max (a b : Q) : Q := Qmax a b.
Definition Math_min (a b : Q) : Q := Qmin a b.

(** The body of the [for] loop at index [i], on the array built so far. *)
Definition loop_body (prices volumes : list (Z * Q))
    (candlestickData : list point) (i : nat) : completion (list point) :=
  match prices !! i with
  | None => Throw TypeError_undefined0
  | Some (t, price) =>
    match DateTime.isoDate t with
    | None => Throw RangeError_time
    | Some timestamp =>
      match volumes !! i with
      | None => Throw TypeError_undefined
      | Some (_, volume) =>
        if (0 <? i)%nat then
          match prices !! (i - 1)%nat with
          | None => Throw TypeError_undefined
          | Some (_, prevPrice) =>
            Normal (candlestickData ++
              [ {| time := timestamp;
                   open := prevPrice;
                   high := Math_max prevPrice price;
                   low := Math_min prevPrice price;
                   close := price;
                   volume := volume |} ])
          end
        else Normal candlestickData
      end
    end
  end.

(** [for (let i = start; i < start + count; i++) body], leaving at the
    first throw. *)
Fixpoint for_loop {A : Type} (body : A -> nat -> completion A)
    (start count : nat) (acc : A) : completion A :=
  match count with
  | O => Normal acc
  | S count' =>
    match body acc start with
    | Normal acc' => for_loop body (S start) count' acc'
    | Throw e => Throw e
    end
  end.

Definition transform (chart : market_chart) : completion (list point) :=
  for_loop (loop_body (prices chart) (total_volumes chart))
           0 (length (prices chart)) [].

(** The JSON object [res.json] sends for one point. *)
Definition point_to_json (p : point) : json :=
  JObj [ ("time", JStr (time p)); ("open", JNum (open p));
         ("high", JNum (high p)); ("low", JNum (low p));
         ("close", JNum (close p)); ("volume", JNum (volume p)) ].

Definition to_json (candlestickData : list point) : json :=
  JArr (map point_to_json candlestickData).

End Candlestick.

(** ** The TTL cache *)

Module TtlCache.

(** [new NodeCache({ stdTTL: 300 })]: the time to live, in seconds. *)
Definition stdTTL : Z := 300.

Definition ttlMs : Z := stdTTL * 1000.

(** Modelled from the spec: [cache.get] of the [node-cache] package, whose
    code is not part of the sources. The cache maps a key to (value,
    insertion time); an entry is visible to reads only while
    [now - insertedAt < 300s], an entry whose age is 300 s or more is absent;
    absence is a normal return. *)
Definition get (key : string) (now : Z) (c : gmap string (json * Z)) : option json :=
  match c !! key with
  | Some (value, insertedAt) =>
    if now - insertedAt <? ttlMs then Some value else None
  | None => None
  end.

(** Modelled from the spec: [cache.set] of the [node-cache] package, whose
    code is not part of the sources. It stores the value with the current
    timestamp, overwriting any existing entry for that key. *)
Definition set (key : string) (value : json) (now : Z)
    (c : gmap string (json * Z)) : gmap string (json * Z) :=
  <[key := (value, now)]> c.

End TtlCache.

(** ** The rate limiter *)

Module RateLimiter.

Definition windowMs : Z := 60 * 1000.
Definition max : nat := 30.
Definition message : string := "Too many requests, please try again later.".

(** [requests.filter(time => time > windowStart)]. *)
Definition validRequests (windowStart : Z) (requests : list Z) : list Z :=
  List.filter (fun time => windowStart <? time) requests.

(** The state change of one [rateLimiter] call for client [ip] at
    [Date.now() = now], and whether [next()] is called. The array stored by
    [requestCounts.set(ip, validRequests)] is the one [push] then extends. *)
Definition check (ip : string) (now : Z) (requestCounts : gmap string (list Z))
    : bool * gmap string (list Z) :=
  let windowStart := now - windowMs in
  let requestCounts1 :=
    if bool_decide (is_Some (requestCounts !! ip)) then requestCounts
    else <[ip := []]> requestCounts in
  let requests := default [] (requestCounts1 !! ip) in
  let valid := validRequests windowStart requests in
  let requestCounts2 := <[ip := valid]> requestCounts1 in
  if (max <=? length valid)%nat then (false, requestCounts2)
  else (true, <[ip := valid ++ [now]]> requestCounts2).

(** A sequence of calls, each a client and its arrival time; the verdicts
    come out in call order. *)
Fixpoint check_all (calls : list (string * Z)) (requestCounts : gmap string (list Z))
    : list bool * gmap string (list Z) :=
  match calls with
  | [] => ([], requestCounts)
  | (ip, now) :: rest =>
    let '(ok, requestCounts') := check ip now requestCounts in
    let '(oks, final) := check_all rest requestCounts' in
    (ok :: oks, final)
  end.

(** The calls of one client, one per arrival time. *)
Definition calls (ip : string) (times : list Z) : list (string * Z) :=
  map (fun t => (ip, t)) times.

(** The admission rule in the words of the specification, on one client's
    list: drop the timestamps older than 60 s, deny (list unchanged) when 30
    or more remain, else append [now] and allow. *)
Definition spec_admit (now : Z) (window : list Z) : bool * list Z :=
  let remaining := List.filter (fun t => negb (windowMs <? now - t)) window in
  if (max <=? length remaining)%nat then (false, remaining)
  else (true, remaining ++ [now]).

End RateLimiter.

(** ** The server: shared state, effects, middleware and routes *)

Module Server.

Import Candlestick.

Definition COINGECKO_API : string := "https://api.coingecko.com/api/v3".

(** What a request does to the outside of the handler, in order. *)
Inductive event : Type :=
  | CacheGet (key : string)
  | CacheSet (key : string) (value : json)
  | AxiosGet (url : string) (params : list (string * string)).

(** The process state: the [requestCounts] map, the cache, the reading of
    [Date.now()] and the effects performed so far. *)
Record world : Type := mkWorld {
  requestCounts : gmap string (list Z);
  cache : gmap string (json * Z);
  clock : Z;
  trace : list event
}.

(** The answer of the upstream to one [axios.get]: how long the [await]
    takes and whether the promise resolves with [response.data] or rejects. *)
Record reply (A : Type) : Type := mkReply {
  latency : Z;
  outcome : completion A
}.
Arguments mkReply {A} latency outcome.
Arguments latency {A} r.
Arguments outcome {A} r.

(** The three upstream resources the handlers ask for. *)
Record upstream : Type := mkUpstream {
  coins_markets : reply json;
  coins_id : string -> reply json;
  coins_market_chart : string -> string -> reply market_chart
}.

(** What [res.status(code).json(body)] sends. *)
Record http_reply : Type := mkHttpReply {
  res_status : Z;
  res_body : json
}.

Definition res_json (body : json) : http_reply := mkHttpReply 200 body.

(** Handler code: state passing with exceptions; a throw keeps the
    effects made before it. *)
Definition M (A : Type) : Type := world -> completion A * world.

#[global] Instance M_ret : MRet M := fun A a w => (Normal a, w).

#[global] Instance M_bind : MBind M := fun A B f m w =>
  match m w with
  | (Normal a, w') => f a w'
  | (Throw e, w') => (Throw e, w')
  end.

Definition throw {A : Type} (e : js_error) : M A := fun w => (Throw e, w).

Definition lift {A : Type} (c : completion A) : M A := fun w => (c, w).

Definition try_catch {A : Type} (body : M A) (handler : js_error -> M A) : M A :=
  fun w =>
    match body w with
    | (Normal a, w') => (Normal a, w')
    | (Throw e, w') => handler e w'
    end.

Definition log (e : event) (w : world) : world :=
  mkWorld (requestCounts w) (cache w) (clock w) (trace w ++ [e]).

Definition cache_get (key : string) : M (option json) := fun w =>
  (Normal (TtlCache.get key (clock w) (cache w)), log (CacheGet key) w).

Definition cache_set (key : string) (value : json) : M unit := fun w =>
  (Normal tt,
   log (CacheSet key value)
     (mkWorld (requestCounts w) (TtlCache.set key value (clock w) (cache w))
              (clock w) (trace w))).

(** [await axios.get(url, { params })]: one request, the clock moves on by
    the latency, the promise resolves or rejects. *)
Definition axios_get {A : Type} (url : string) (params : list (string * string))
    (r : reply A) : M A := fun w =>
  (outcome r,
   log (AxiosGet url params)
     (mkWorld (requestCounts w) (cache w) (clock w + latency r) (trace w))).

(** [error.response?.status || 500]. *)
Definition error_status (error : js_error) : Z :=
  match response error with
  | Some r => if status r =? 0 then 500 else status r
  | None => 500
  end.

(** [error.response?.data || error.message]. *)
Definition error_details (error : js_error) : json :=
  match response error with
  | Some r => if truthy (data r) then data r else JStr (message error)
  | None => JStr (message error)
  end.

(** The [catch] block shared by the three handlers, up to its message. *)
Definition fail (msg : string) (error : js_error) : M http_reply :=
  mret (mkHttpReply (error_status error)
          (JObj [ ("error", JStr msg); ("details", error_details error) ])).

(** [app.get('/api/cryptocurrencies', ...)]. *)
Definition cryptocurrencies (up : upstream) : M http_reply :=
  try_catch
    (let cacheKey := "cryptocurrencies" in
     cachedData ← cache_get cacheKey;
     if truthy_opt cachedData then mret (res_json (default JNull cachedData))
     else
       response_data ← axios_get (COINGECKO_API +:+ "/coins/markets")
         [ ("vs_currency", "usd"); ("order", "market_cap_desc");
           ("per_page", "100"); ("page", "1"); ("sparkline", "false") ]
         (coins_markets up);
       cache_set cacheKey response_data;;
       mret (res_json response_data))
    (fail "Failed to fetch cryptocurrency data").

(** [app.get('/api/cryptocurrency/:id', ...)]. *)
Definition cryptocurrency (up : upstream) (id : string) : M http_reply :=
  try_catch
    (let cacheKey := "crypto_" +:+ id in
     cachedData ← cache_get cacheKey;
     if truthy_opt cachedData then mret (res_json (default JNull cachedData))
     else
       response_data ← axios_get (COINGECKO_API +:+ "/coins/" +:+ id)
         [ ("localization", "false"); ("tickers", "false");
           ("market_data", "true"); ("community_data", "false");
           ("developer_data", "false") ]
         (coins_id up id);
       cache_set cacheKey response_data;;
       mret (res_json response_data))
    (fail "Failed to fetch cryptocurrency details").

(** The cache key of the history endpoint, [days] defaulting to ['30']. *)
Definition history_cacheKey (id : string) (days : option string) : string :=
  "history_" +:+ id +:+ "_" +:+ default "30" days.

(** [app.get('/api/cryptocurrency/:id/history', ...)]. *)
Definition history (up : upstream) (id : string) (query_days : option string)
    : M http_reply :=
  try_catch
    (let days := default "30" query_days in
     let cacheKey := history_cacheKey id query_days in
     cachedData ← cache_get cacheKey;
     if truthy_opt cachedData then mret (res_json (default JNull cachedData))
     else
       response_data ← axios_get
         (COINGECKO_API +:+ "/coins/" +:+ id +:+ "/market_chart")
         [ ("vs_currency", "usd"); ("days", days); ("interval", "daily") ]
         (coins_market_chart up id days);
       candlestickData ← lift (transform response_data);
       cache_set cacheKey (to_json candlestickData);;
       mret (res_json (to_json candlestickData)))
    (fail "Failed to fetch historical price data").

(** The [rateLimiter] middleware; [next] is the rest of the route. *)
Definition rateLimiter (ip : string) (next : M http_reply) : M http_reply :=
  fun w =>
    let '(ok, requestCounts') := RateLimiter.check ip (clock w) (requestCounts w) in
    let w' := mkWorld requestCounts' (cache w) (clock w) (trace w) in
    if ok then next w'
    else (Normal (mkHttpReply 429 (JObj [ ("error", JStr RateLimiter.message) ])), w').

Inductive route : Type :=
  | Cryptocurrencies
  | Cryptocurrency (id : string)
  | History (id : string) (days : option string).

Definition handler (up : upstream) (r : route) : M http_reply :=
  match r with
  | Cryptocurrencies => cryptocurrencies up
  | Cryptocurrency id => cryptocurrency up id
  | History id days => history up id days
  end.

(** The fixed [error] text of each route's [catch] block. *)
Definition failure_message (r : route) : string :=
  match r with
  | Cryptocurrencies => "Failed to fetch cryptocurrency data"
  | Cryptocurrency _ => "Failed to fetch cryptocurrency details"
  | History _ _ => "Failed to fetch historical price data"
  end.

(** The cache key each route computes. *)
Definition cacheKey_of (r : route) : string :=
  match r with
  | Cryptocurrencies => "cryptocurrencies"
  | Cryptocurrency id => "crypto_" +:+ id
  | History id days => history_cacheKey id days
  end.

(** One inbound request: the client address, the arrival time and the
    route it matches. The effects of the request are traced from empty. *)
Record request : Type := mkRequest {
  ip : string;
  now : Z;
  target : route
}.

Definition arrive (req : request) (w : world) : world :=
  mkWorld (requestCounts w) (cache w) (now req) [].

Definition serve (up : upstream) (req : request) (w : world)
    : completion http_reply * world :=
  rateLimiter (ip req) (handler up (target req)) (arrive req w).

(** The one upstream request each route makes on a miss. *)
Definition fetch_of (r : route) : event :=
  match r with
  | Cryptocurrencies =>
    AxiosGet (COINGECKO_API +:+ "/coins/markets")
      [ ("vs_currency", "usd"); ("order", "market_cap_desc");
        ("per_page", "100"); ("page", "1"); ("sparkline", "false") ]
  | Cryptocurrency id =>
    AxiosGet (COINGECKO_API +:+ "/coins/" +:+ id)
      [ ("localization", "false"); ("tickers", "false");
        ("market_data", "true"); ("community_data", "false");
        ("developer_data", "false") ]
  | History id days =>
    AxiosGet (COINGECKO_API +:+ "/coins/" +:+ id +:+ "/market_chart")
      [ ("vs_currency", "usd"); ("days", default "30" days);
        ("interval", "daily") ]
  end.

(** How long the upstream takes to answer the request of a route. *)
Definition latency_of (up : upstream) (r : route) : Z :=
  match r with
  | Cryptocurrencies => latency (coins_markets up)
  | Cryptocurrency id => latency (coins_id up id)
  | History id days => latency (coins_market_chart up id (default "30" days))
  end.

(** The error with which the upstream request of a route rejects, if it does. *)
Definition rejection_of (up : upstream) (r : route) : option js_error :=
  match r with
  | Cryptocurrencies =>
    match outcome (coins_markets up) with Throw e => Some e | Normal _ => None end
  | Cryptocurrency id =>
    match outcome (coins_id up id) with Throw e => Some e | Normal _ => None end
  | History id days =>
    match outcome (coins_market_chart up id (default "30" days)) with
    | Throw e => Some e
    | Normal _ => None
    end
  end.

(** What a route computes between the cache miss and the cache write: the
    upstream payload, transformed on the history route, or the error thrown
    on the way. *)
Definition miss_result (up : upstream) (r : route) : completion json :=
  match r with
  | Cryptocurrencies => outcome (coins_markets up)
  | Cryptocurrency id => outcome (coins_id up id)
  | History id days =>
    match outcome (coins_market_chart up id (default "30" days)) with
    | Normal chart =>
      match transform chart with
      | Normal candlestickData => Normal (to_json candlestickData)
      | Throw e => Throw e
      end
    | Throw e => Throw e
    end
  end.

(** The world a request of client [ip] arriving at [now] and admitted by
    the limiter hands to its route handler. *)
Definition admitted_world (ip : string) (now : Z) (w : world) : world :=
  mkWorld (RateLimiter.check ip now (requestCounts w)).2 (cache w) now [].

Definition is_fetch (e : event) : bool :=
  match e with AxiosGet _ _ => true | _ => false end.

Definition is_cache_write (e : event) : bool :=
  match e with CacheSet _ _ => true | _ => false end.

Definition is_cache_read (e : event) : bool :=
  match e with CacheGet _ => true | _ => false end.

End Server.

(** ** Concrete scenarios *)

Module Scenario.

Import Server.

(** A process that has served nothing yet. *)
Definition fresh : world := mkWorld ∅ ∅ 0 [].

(** A process in which one client has 30 requests on record at time 0. *)
Definition saturated : world :=
  mkWorld {[ "10.0.0.1" := replicate 30 0 ]} ∅ 0 [].

Definition three_days : Candlestick.market_chart :=
  Candlestick.mkChart
    [ (0, 10%Q); (86400000, 12%Q); (172800000, 9%Q) ]
    [ (0, 100%Q); (86400000, 150%Q); (172800000, 80%Q) ].

(** Three prices but only two volumes. *)
Definition short_volumes : Candlestick.market_chart :=
  Candlestick.mkChart
    [ (0, 10%Q); (86400000, 12%Q); (172800000, 9%Q) ]
    [ (0, 100%Q); (86400000, 150%Q) ].

(** An upstream that answers every request after 120 ms. *)
Definition healthy : upstream :=
  mkUpstream
    (mkReply 120 (Normal (JArr [ JObj [ ("id", JStr "bitcoin") ] ])))
    (fun id => mkReply 120 (Normal (JObj [ ("id", JStr id) ])))
    (fun _ _ => mkReply 120 (Normal three_days)).

(** An upstream that answers every request with status 500. *)
Definition failing : upstream :=
  let error :=
    mkError "AxiosError"
      (Some (mkHttpResponse 500 (JObj [ ("status", JStr "internal error") ])))
      "Request failed with status code 500" in
  mkUpstream (mkReply 120 (Throw error))
    (fun _ => mkReply 120 (Throw error))
    (fun _ _ => mkReply 120 (Throw error)).

(** An upstream whose answers have status 200 and an empty body, which
    [axios] hands over as the empty string. *)
Definition empty_body : upstream :=
  mkUpstream (mkReply 120 (Normal (JStr "")))
    (fun _ => mkReply 120 (Normal (JStr "")))
    (fun _ _ => mkReply 120 (Normal three_days)).

(** An upstream whose market chart lacks the last volume. *)
Definition truncated : upstream :=
  mkUpstream (mkReply 120 (Normal (JArr [])))
    (fun id => mkReply 120 (Normal (JObj [ ("id", JStr id) ])))
    (fun _ _ => mkReply 120 (Normal short_volumes)).

End Scenario.

(** ** Traffic of one client through the limiter *)

Module Traffic.

(** The arrival times of the calls of client [ip] that the limiter let
    through, when the client calls at [times] starting from [requestCounts]. *)
Definition admitted_times (ip : string) (times : list Z)
    (requestCounts : gmap string (list Z)) : list Z :=
  (List.filter snd
     (zip times (RateLimiter.check_all (RateLimiter.calls ip times) requestCounts).1)).*1.

(** [t] lies in the 60 s that end at [T]. *)
Definition in_window (T t : Z) : bool :=
  (T - RateLimiter.windowMs <? t) && (t <=? T).

End Traffic.

(** ** The dashboard page: the search filter *)

Module Dashboard.

(** One entry of the list the dashboard shows. *)
Record Cryptocurrency : Type := mkCryptocurrency {
  id : string;
  symbol : string;
  name : string;
  current_price : Q;
  market_cap : Q;
  price_change_percentage_24h : Q;
  image : string
}.

(** [toLowerCase] on one ASCII character: only [A]..[Z] change. *)
Definition toLowerCase_char (c : ascii) : ascii :=
  let n := nat_of_ascii c in
  if ((65 <=? n) && (n <=? 90))%nat then ascii_of_nat (n + 32) else c.

(** [String.prototype.toLowerCase], for strings of ASCII characters. *)
Fixpoint toLowerCase (s : string) : string :=
  match s with
  | EmptyString => EmptyString
  | String c rest => String (toLowerCase_char c) (toLowerCase rest)
  end.

(** [s.includes(search)]: [search] occurs in [s] at some position. *)
Fixpoint includes (s search : string) : bool :=
  if String.prefix search s then true
  else
    match s with
    | EmptyString => false
    | String _ rest => includes rest search
    end.

(** The predicate of [cryptocurrencies.filter(...)]. *)
Definition matches (searchTerm : string) (crypto : Cryptocurrency) : bool :=
  includes (toLowerCase (name crypto)) (toLowerCase searchTerm)
  || includes (toLowerCase (symbol crypto)) (toLowerCase searchTerm).

Definition filteredCryptocurrencies (cryptocurrencies : list Cryptocurrency)
    (searchTerm : string) : list Cryptocurrency :=
  List.filter (matches searchTerm) cryptocurrencies.

End Dashboard.

(** ** The detail page: what [predictNextPrice] feeds to the model *)

Module Prediction.

Definition sequenceLength : nat := 5.

(** [a.slice(start, stop)] for indices that are not negative. *)
Definition slice {A : Type} (start stop : nat) (a : list A) : list A :=
  take (stop - start) (drop start a).

(** [a.slice(-n)]: the last [n] elements, all of [a] when it is shorter. *)
Definition slice_last {A : Type} (n : nat) (a : list A) : list A :=
  drop (length a - n) a.

(** [response.data.map(d => d.close)]. *)
Definition closes (candlestickData : list Candlestick.point) : list Q :=
  map Candlestick.close candlestickData.

(** [closes.slice(-30)]. *)
Definition lastPrices (closes : list Q) : list Q := slice_last 30 closes.

(** A [for] loop whose body cannot throw. *)
Fixpoint for_each {St : Type} (body : St -> nat -> St) (start count : nat)
    (acc : St) : St :=
  match count with
  | O => acc
  | S count' => for_each body (S start) count' (body acc start)
  end.

(** The loop that fills [sequences] and [targets]; an element read past the
    end of the array is [undefined], here [None]. *)
Definition training_set {A : Type} (normalizedPrices : list A)
    : list (list A) * list (option A) :=
  for_each
    (fun '(sequences, targets) i =>
       (sequences ++ [slice i (i + sequenceLength) normalizedPrices],
        targets ++ [normalizedPrices !! (i + sequenceLength)%nat]))
    0 (length normalizedPrices - sequenceLength) ([], []).

(** [normalizedPrices.slice(-sequenceLength)]. *)
Definition lastSequence {A : Type} (normalizedPrices : list A) : list A :=
  slice_last sequenceLength normalizedPrices.

End Prediction.

(** ** The detail page: loading, errors and what is rendered *)

Module Detail.

(** The browser's [axios.get] on an answer of the server: the promise
    resolves with the body for a status 2xx and rejects otherwise, with the
    answer in [error.response]; without an answer it rejects with a bare
    error. *)
Inductive exchange : Type :=
  | Answered (r : Server.http_reply)
  | NoAnswer (message : string).

Definition axios_get (x : exchange) : completion json :=
  match x with
  | Answered r =>
    if (200 <=? Server.res_status r) && (Server.res_status r <? 300)
    then Normal (Server.res_body r)
    else Throw (mkError "AxiosError"
                  (Some (mkHttpResponse (Server.res_status r) (Server.res_body r)))
                  ("Request failed with status code " +:+ pretty (Server.res_status r)))
  | NoAnswer message => Throw (mkError "AxiosError" None message)
  end.

(** [value.key] on a JSON value: the last field of that name of an object,
    [undefined] on everything else. *)
Definition prop (key : string) (value : json) : option json :=
  match value with
  | JObj fields =>
    snd <$> List.find (fun f => String.eqb (fst f) key) (rev fields)
  | _ => None
  end.

(** [error.response?.data?.error || fallback]. *)
Definition error_text (fallback : string) (error : js_error) : json :=
  match response error with
  | Some r =>
    match prop "error" (data r) with
    | Some text => if truthy text then text else JStr fallback
    | None => JStr fallback
    end
  | None => JStr fallback
  end.

(** The state of the component that the two fetches and the render read:
    [null] is [JNull]. *)
Record state : Type := mkState {
  cryptoData : json;
  loading : bool;
  error : json;
  timeframe : string
}.

Definition initial : state := mkState JNull true JNull "30".

(** [fetchCryptoData], from the outcome of its request on. *)
Definition fetchCryptoData (x : exchange) (s : state) : state :=
  match axios_get x with
  | Normal response_data => mkState response_data false (error s) (timeframe s)
  | Throw e =>
    mkState (cryptoData s) false
      (error_text "Failed to fetch cryptocurrency data" e) (timeframe s)
  end.

(** The [catch] block of [fetchChartData]. *)
Definition fetchChartData_catch (e : js_error) (s : state) : state :=
  mkState (cryptoData s) (loading s)
    (error_text "Failed to fetch chart data" e) (timeframe s).

(** [onChange] of the timeframe buttons: [value && setTimeframe(value)];
    the group hands over [null] when the selected button is clicked again. *)
Definition onChange (value : option string) (s : state) : state :=
  match value with
  | Some v =>
    if String.eqb v "" then s
    else mkState (cryptoData s) (loading s) (error s) v
  | None => s
  end.

(** The values of the five timeframe buttons. *)
Definition buttons : list string := [ "7"; "30"; "90"; "180"; "365" ].

(** Which of its four bodies the component returns. *)
Inductive view : Type :=
  | Spinner
  | ErrorAlert (text : json)
  | NotFound
  | Page (data : json).

Definition render (s : state) : view :=
  if loading s then Spinner
  else if truthy (error s) then ErrorAlert (error s)
  else if negb (truthy (cryptoData s)) then NotFound
  else Page (cryptoData s).

End Detail.

(** ** The date model on known values *)

Example isoDate_epoch : DateTime.isoDate 0 = Some "1970-01-01".
Proof. reflexivity. Qed.

Example toISOString_2023 :
  DateTime.toISOString 1700000000000 = Some "2023-11-14T22:13:20.000Z".
Proof. reflexivity. Qed.

Example isoDate_leap_day : DateTime.isoDate 951782400000 = Some "2000-02-29".
Proof. reflexivity. Qed.

Example toISOString_before_epoch :
  DateTime.toISOString (-1) = Some "1969-12-31T23:59:59.999Z".
Proof. reflexivity. Qed.

Example toISOString_max :
  DateTime.toISOString 8640000000000000 = Some "+275760-09-13T00:00:00.000Z".
Proof. reflexivity. Qed.

Example toISOString_min :
  DateTime.toISOString (-8640000000000000) = Some "-271821-04-20T00:00:00.000Z".
Proof. reflexivity. Qed.

Example toISOString_invalid : DateTime.toISOString 8640000000000001 = None.
Proof. reflexivity. Qed.

(** ** The day of a timestamp *)

Section DateFacts.

Import DateTime.

Lemma digit_not_T (n : Z) : Ascii.eqb (digit n) "T" = false.
Proof.
  unfold digit. assert (Hk : (Z.to_nat (n mod 10) < 10)%nat).
  { pose proof (Z.mod_pos_bound n 10). lia. }
  revert Hk. generalize (Z.to_nat (n mod 10)). intros k Hk.
  do 10 (destruct k as [|k]; [reflexivity|]). lia.
Qed.

Lemma split0_app (a b : string) :
  split0 "T" a = a → split0 "T" (a +:+ b) = a +:+ split0 "T" b.
Proof.
  induction a as [|c a IH]; simpl; [done|].
  destruct (Ascii.eqb c "T"); [done|]. intros [= Ha]. by rewrite IH.
Qed.

Lemma split0_app_sep (a b : string) :
  split0 "T" a = a → split0 "T" (a +:+ String "T" b) = a.
Proof.
  induction a as [|c a IH]; simpl; [done|].
  destruct (Ascii.eqb c "T"); [done|]. intros [= Ha]. by rewrite IH.
Qed.

Lemma split0_pad (width : nat) : ∀ n, split0 "T" (pad width n) = pad width n.
Proof.
  induction width as [|width IH]; intros n; simpl; [done|].
  rewrite split0_app by apply IH. f_equal. cbn [split0]. by rewrite digit_not_T.
Qed.

Lemma split0_isoYear (y : Z) : split0 "T" (isoYear y) = isoYear y.
Proof.
  unfold isoYear. destruct ((0 <=? y) && (y <=? 9999)); [apply split0_pad|].
  destruct (y <? 0); rewrite split0_app by reflexivity; by rewrite split0_pad.
Qed.

(** The timestamp of a candle is the calendar day of its price point: it
    depends on the millisecond time only through the day number. *)
Lemma isoDate_day (t : Z) :
  validTime t = true → isoDate t = Some (isoDay (Day t)).
Proof.
  intros Hvalid. unfold isoDate, toISOString, isoDay. rewrite Hvalid.
  destruct (civil (Day t)) as [[y m] d]. cbn [fmap option_fmap option_map]. f_equal.
  rewrite split0_app by apply split0_isoYear. f_equal.
  rewrite (split0_app "-") by reflexivity. f_equal.
  rewrite split0_app by apply split0_pad. f_equal.
  rewrite (split0_app "-") by reflexivity. f_equal.
  apply split0_app_sep, split0_pad.
Qed.

Lemma isoDate_valid t : validTime t = true → is_Some (isoDate t).
Proof. intros Hv. rewrite isoDate_day by done. eauto. Qed.

End DateFacts.

(** ** The candlestick transform *)

Section TransformFacts.

Import Candlestick.

Variables prices volumes : list (Z * Q).

(** What the claim says about the candle of index [i]. *)
Let candle_of (i : nat) (c : point) : Prop :=
  ∃ t0 prevPrice t price tv vol date,
    prices !! (i - 1)%nat = Some (t0, prevPrice) ∧
    prices !! i = Some (t, price) ∧
    volumes !! i = Some (tv, vol) ∧
    DateTime.isoDate t = Some date ∧
    c = {| time := date; open := prevPrice;
           high := Qmax prevPrice price; low := Qmin prevPrice price;
           close := price; volume := vol |}.

Hypothesis volumes_match : (length prices ≤ length volumes)%nat.
Hypothesis times_valid : Forall (fun p => DateTime.validTime p.1 = true) prices.

Lemma loop_body_first acc :
  (0 < length prices)%nat → loop_body prices volumes acc 0 = Normal acc.
Proof.
  intros Hlen. unfold loop_body.
  destruct (lookup_lt_is_Some_2 prices 0%nat Hlen) as [[t price] Hp]. rewrite Hp.
  destruct (isoDate_valid t) as [date Hd].
  { rewrite Forall_forall in times_valid. apply (times_valid (t, price)).
    eapply list_elem_of_lookup_2; eauto. }
  rewrite Hd.
  destruct (lookup_lt_is_Some_2 volumes 0%nat) as [[tv vol] Hv]; [lia|].
  rewrite Hv. reflexivity.
Qed.

Lemma loop_body_push acc i :
  (0 < i < length prices)%nat →
  ∃ c, loop_body prices volumes acc i = Normal (acc ++ [c]) ∧ candle_of i c.
Proof.
  intros Hi. unfold loop_body.
  destruct (lookup_lt_is_Some_2 prices i) as [[t price] Hp]; [lia|]. rewrite Hp.
  destruct (isoDate_valid t) as [date Hd].
  { rewrite Forall_forall in times_valid. apply (times_valid (t, price)).
    eapply list_elem_of_lookup_2; eauto. }
  rewrite Hd.
  destruct (lookup_lt_is_Some_2 volumes i) as [[tv vol] Hv]; [lia|]. rewrite Hv.
  destruct (Nat.ltb_spec 0 i) as [_|]; [|lia].
  destruct (lookup_lt_is_Some_2 prices (i - 1)%nat) as [[t0 prev] Hp0]; [lia|].
  rewrite Hp0. eexists. split; [reflexivity|].
  unfold candle_of. do 7 eexists. repeat split; eauto.
Qed.

Lemma for_loop_pushes count : ∀ start acc,
  (0 < start)%nat → (start + count ≤ length prices)%nat →
  ∃ out, for_loop (loop_body prices volumes) start count acc = Normal (acc ++ out) ∧
         length out = count ∧
         ∀ i, (start ≤ i < start + count)%nat →
              ∃ c, out !! (i - start)%nat = Some c ∧ candle_of i c.
Proof.
  induction count as [|count IH]; intros start acc Hs Hlen.
  - exists []. simpl. rewrite app_nil_r. repeat split; auto. intros i Hi. lia.
  - destruct (loop_body_push acc start) as (c & Hbody & Hc); [lia|].
    destruct (IH (S start) (acc ++ [c])) as (out & Hloop & Hout & Hat); [lia|lia|].
    exists (c :: out). simpl. rewrite Hbody, Hloop, <- app_assoc. simpl.
    repeat split; [by rewrite Hout|].
    intros i Hi. destruct (decide (i = start)) as [->|Hne].
    + exists c. rewrite Nat.sub_diag. auto.
    + destruct (Hat i) as (c' & Hl & Hc'); [lia|].
      exists c'. split; [|done].
      replace (i - start)%nat with (S (i - S start)) by lia. done.
Qed.

Lemma transform_points :
  ∃ out, transform (mkChart prices volumes) = Normal out ∧
         length out = (length prices - 1)%nat ∧
         ∀ i, (1 ≤ i < length prices)%nat →
              ∃ c, out !! (i - 1)%nat = Some c ∧ candle_of i c.
Proof.
  unfold transform. simpl.
  assert (Hn : ∃ n, n = length prices) by eauto. destruct Hn as [n Hn].
  rewrite <- Hn. destruct n as [|n].
  - exists []. simpl. repeat split; auto. intros i Hi. lia.
  - simpl. rewrite loop_body_first by lia.
    destruct (for_loop_pushes n 1%nat []) as (out & Hloop & Hout & Hat); [lia|lia|].
    exists out. rewrite Hloop. repeat split; [lia|].
    intros i Hi. apply Hat. lia.
Qed.

End TransformFacts.

(** ** Throws of the transform *)

Section TransformThrows.

Import Candlestick.

Lemma for_loop_throw_inv {A : Type} (body : A → nat → completion A) count :
  ∀ start acc e,
    for_loop body start count acc = Throw e →
    ∃ i acc', (start ≤ i < start + count)%nat ∧ body acc' i = Throw e.
Proof.
  induction count as [|count IH]; intros start acc e Hloop; simpl in Hloop; [done|].
  destruct (body acc start) as [acc'|e'] eqn:Hbody.
  - destruct (IH _ _ _ Hloop) as (i & acc'' & Hi & Hthrow).
    exists i, acc''. split; [lia|done].
  - inversion Hloop; subst e'. exists start, acc. split; [lia|done].
Qed.

Lemma for_loop_reaches_throw {A : Type} (body : A → nat → completion A) count :
  ∀ start acc i,
    (start ≤ i < start + count)%nat →
    (∀ acc', ∃ e, body acc' i = Throw e) →
    ∃ e, for_loop body start count acc = Throw e.
Proof.
  induction count as [|count IH]; intros start acc i Hi Hthrows; [lia|]. simpl.
  destruct (body acc start) as [acc'|e'] eqn:Hbody; [|by eauto].
  destruct (decide (i = start)) as [->|Hne].
  - destruct (Hthrows acc) as [e He]. congruence.
  - apply (IH (S start) acc' i); [lia|done].
Qed.

(** What the loop body can throw at an index inside [prices]. *)
Lemma loop_body_throw (prices volumes : list (Z * Q)) acc i e :
  (i < length prices)%nat →
  loop_body prices volumes acc i = Throw e →
  e = RangeError_time ∨ (e = TypeError_undefined ∧ (length volumes ≤ i)%nat).
Proof.
  intros Hi. unfold loop_body.
  destruct (lookup_lt_is_Some_2 prices i) as [[t price] ->]; [exact Hi|].
  destruct (DateTime.isoDate t); [|intros [= <-]; by left].
  destruct (volumes !! i) as [[tv vol]|] eqn:Hv.
  - destruct (0 <? i)%nat; [|done].
    destruct (lookup_lt_is_Some_2 prices (i - 1)%nat) as [[t0 prev] ->]; [lia|done].
  - intros [= <-]. right. split; [done|]. by apply lookup_ge_None.
Qed.

Lemma transform_short_volumes (chart : market_chart) :
  (length (total_volumes chart) < length (prices chart))%nat →
  ∃ e, transform chart = Throw e ∧
       (e = TypeError_undefined ∨ e = RangeError_time).
Proof.
  intros Hshort. unfold transform.
  destruct (for_loop_reaches_throw (loop_body (prices chart) (total_volumes chart))
              (length (prices chart)) 0%nat [] (length (total_volumes chart)))
    as [e He]; [lia| |].
  - intros acc'. unfold loop_body.
    destruct (lookup_lt_is_Some_2 (prices chart) (length (total_volumes chart)))
      as [[t price] ->]; [exact Hshort|].
    destruct (DateTime.isoDate t); [|by eauto].
    rewrite (proj2 (lookup_ge_None (total_volumes chart) _)) by lia. by eauto.
  - exists e. split; [done|].
    destruct (for_loop_throw_inv _ _ _ _ _ He) as (i & acc' & Hi & Hthrow).
    destruct (loop_body_throw _ _ _ _ _ (proj2 Hi) Hthrow) as [->|[-> _]]; auto.
Qed.

Lemma transform_enough_volumes (chart : market_chart) e :
  (length (prices chart) ≤ length (total_volumes chart))%nat →
  transform chart = Throw e → e = RangeError_time.
Proof.
  intros Hlen Hthrow. unfold transform in Hthrow.
  destruct (for_loop_throw_inv _ _ _ _ _ Hthrow) as (i & acc' & Hi & Hbody).
  destruct (loop_body_throw _ _ _ _ _ (proj2 Hi) Hbody) as [->|[-> Hge]]; [done|].
  destruct Hi as [_ Hi]. simpl in Hi. lia.
Qed.

End TransformThrows.

(** ** The rate limiter *)

Section RateLimiterFacts.

Import RateLimiter.

Implicit Types (rc : gmap string (list Z)) (ip : string) (now : Z).

(** The two [requestCounts.set] calls and the [push] collapse into one
    update of the client's entry. *)
Lemma check_unfold ip now rc :
  check ip now rc =
    let valid := validRequests (now - windowMs) (default [] (rc !! ip)) in
    if (max <=? length valid)%nat then (false, <[ip := valid]> rc)
    else (true, <[ip := valid ++ [now]]> rc).
Proof.
  unfold check. case_bool_decide as Hin.
  - destruct Hin as [l Hl]. rewrite Hl. simpl.
    case_match; [done|]. by rewrite insert_insert_eq.
  - apply eq_None_not_Some in Hin. rewrite lookup_insert_eq, Hin. simpl.
    rewrite !insert_insert_eq. reflexivity.
Qed.

Lemma check_verdict ip now rc :
  (check ip now rc).1 =
    negb (max <=? length (validRequests (now - windowMs) (default [] (rc !! ip))))%nat.
Proof. rewrite check_unfold. simpl. by case_match. Qed.

Lemma check_lookup ip now rc :
  (check ip now rc).2 !! ip =
    Some (if (max <=? length (validRequests (now - windowMs) (default [] (rc !! ip))))%nat
          then validRequests (now - windowMs) (default [] (rc !! ip))
          else validRequests (now - windowMs) (default [] (rc !! ip)) ++ [now]).
Proof. rewrite check_unfold. simpl. case_match; simpl; by rewrite lookup_insert_eq. Qed.

Lemma check_lookup_ne ip ip' now rc :
  ip ≠ ip' → (check ip now rc).2 !! ip' = rc !! ip'.
Proof.
  intros Hne. rewrite check_unfold. simpl.
  case_match; simpl; by rewrite lookup_insert_ne.
Qed.

Lemma check_dom ip now rc : dom (check ip now rc).2 = {[ip]} ∪ dom rc.
Proof. rewrite check_unfold. simpl. case_match; simpl; by rewrite dom_insert_L. Qed.

Lemma validRequests_all windowStart (l : list Z) :
  Forall (fun t => windowStart < t) l → validRequests windowStart l = l.
Proof.
  induction 1 as [|t l Ht _ IH]; [done|]. unfold validRequests in *. simpl.
  destruct (Z.ltb_spec windowStart t); [|lia]. by rewrite IH.
Qed.

Lemma validRequests_length windowStart (l : list Z) :
  (length (validRequests windowStart l) ≤ length l)%nat.
Proof. apply List.filter_length_le. Qed.

Lemma validRequests_in windowStart (l : list Z) t :
  t ∈ validRequests windowStart l ↔ t ∈ l ∧ windowStart < t.
Proof.
  unfold validRequests. by rewrite !list_elem_of_In, List.filter_In, Z.ltb_lt.
Qed.

Lemma validRequests_age now (l : list Z) :
  validRequests (now - windowMs) l = List.filter (fun t => now - t <? windowMs) l.
Proof.
  unfold validRequests. induction l as [|t l IH]; [done|]. simpl. rewrite IH.
  destruct (Z.ltb_spec (now - windowMs) t), (Z.ltb_spec (now - t) windowMs);
    done || lia.
Qed.

Lemma check_all_cons ip now (rest : list (string * Z)) rc :
  check_all ((ip, now) :: rest) rc =
    ((check ip now rc).1 :: (check_all rest (check ip now rc).2).1,
     (check_all rest (check ip now rc).2).2).
Proof.
  simpl. destruct (check ip now rc) as [ok rc1]. simpl.
  by destruct (check_all rest rc1).
Qed.

Lemma check_all_app (calls1 calls2 : list (string * Z)) rc :
  check_all (calls1 ++ calls2) rc =
    ((check_all calls1 rc).1 ++ (check_all calls2 (check_all calls1 rc).2).1,
     (check_all calls2 (check_all calls1 rc).2).2).
Proof.
  revert rc. induction calls1 as [|[ip now] calls1 IH]; intros rc; simpl.
  - by destruct (check_all calls2 rc).
  - destruct (check ip now rc) as [ok rc1]. rewrite IH.
    destruct (check_all calls1 rc1) as [oks1 rc2]. simpl.
    by destruct (check_all calls2 rc2).
Qed.

(** Calls of one client that all fall into one window, with room left,
    are all allowed and all recorded. *)
Lemma check_all_within ip lo hi (times : list Z) : ∀ rc,
  hi - windowMs < lo →
  Forall (fun t => lo ≤ t ≤ hi) (default [] (rc !! ip) ++ times) →
  (length (default [] (rc !! ip)) + length times ≤ max)%nat →
  (check_all (calls ip times) rc).1 = replicate (length times) true ∧
  default [] ((check_all (calls ip times) rc).2 !! ip) = default [] (rc !! ip) ++ times.
Proof.
  induction times as [|t times IH]; intros rc Hwin Hall Hroom; simpl.
  - by rewrite app_nil_r.
  - pose proof (check_verdict ip t rc) as Hv. pose proof (check_lookup ip t rc) as Hl.
    destruct (check ip t rc) as [ok rc1]. cbn [fst snd] in *.
    rewrite Forall_app, Forall_cons in Hall. destruct Hall as (Hold & Ht & Hrest).
    rewrite validRequests_all in Hv, Hl
      by (eapply Forall_impl; [exact Hold|]; simpl; intros; lia).
    assert (Hroom' : (max <=? length (default [] (rc !! ip)))%nat = false)
      by (apply Nat.leb_gt; rewrite length_cons in Hroom; lia).
    rewrite Hroom' in Hv, Hl. simpl in Hv. subst ok.
    destruct (IH rc1) as [IH1 IH2]; [done| | |].
    + rewrite Hl. simpl. rewrite Forall_app, Forall_app, Forall_singleton. done.
    + rewrite Hl. simpl. rewrite length_app, length_cons in *. simpl. lia.
    + destruct (check_all (calls ip times) rc1) as [oks rc2]. simpl in *.
      rewrite IH1, IH2, Hl. simpl. by rewrite <- app_assoc.
Qed.

End RateLimiterFacts.

(** ** Middleware and route handlers *)

Section ServerFacts.

Import Server.

Implicit Types (up : upstream) (r : route) (w : world) (req : request).

(** The parts of the world a handler leaves alone. *)
Lemma serve_denied up req w :
  (RateLimiter.check (ip req) (now req) (requestCounts w)).1 = false →
  serve up req w =
    (Normal (mkHttpReply 429 (JObj [ ("error", JStr RateLimiter.message) ])),
     admitted_world (ip req) (now req) w).
Proof.
  intros Hdeny. unfold serve, rateLimiter, arrive, admitted_world. simpl.
  destruct (RateLimiter.check _ _ _) as [ok rc']. simpl in *. by subst ok.
Qed.

Lemma serve_admitted up req w :
  (RateLimiter.check (ip req) (now req) (requestCounts w)).1 = true →
  serve up req w = handler up (target req) (admitted_world (ip req) (now req) w).
Proof.
  intros Hok. unfold serve, rateLimiter, arrive, admitted_world. simpl.
  destruct (RateLimiter.check _ _ _) as [ok rc']. simpl in *. by subst ok.
Qed.

(** A truthy cached value is sent back after the lookup alone. *)
Lemma handler_hit up r w :
  truthy_opt (TtlCache.get (cacheKey_of r) (clock w) (cache w)) = true →
  handler up r w =
    (Normal (res_json (default JNull (TtlCache.get (cacheKey_of r) (clock w) (cache w)))),
     log (CacheGet (cacheKey_of r)) w).
Proof.
  intros Hhit.
  destruct r; simpl in *;
    unfold cryptocurrencies, cryptocurrency, history, try_catch, mbind, M_bind,
      cache_get; simpl; rewrite Hhit; reflexivity.
Qed.

(** On a falsy lookup the route fetches once; it then either stores and
    sends the result, or sends the error reply of its [catch] block. *)
Lemma handler_miss up r w :
  truthy_opt (TtlCache.get (cacheKey_of r) (clock w) (cache w)) = false →
  handler up r w =
    match miss_result up r with
    | Normal v =>
      (Normal (res_json v),
       mkWorld (requestCounts w)
         (TtlCache.set (cacheKey_of r) v (clock w + latency_of up r) (cache w))
         (clock w + latency_of up r)
         (trace w ++ [CacheGet (cacheKey_of r); fetch_of r; CacheSet (cacheKey_of r) v]))
    | Throw e =>
      (Normal (mkHttpReply (error_status e)
                 (JObj [ ("error", JStr (failure_message r));
                         ("details", error_details e) ])),
       mkWorld (requestCounts w) (cache w) (clock w + latency_of up r)
         (trace w ++ [CacheGet (cacheKey_of r); fetch_of r]))
    end.
Proof.
  intros Hmiss.
  destruct r; simpl in *;
    unfold cryptocurrencies, cryptocurrency, history, try_catch, mbind, M_bind,
      cache_get, axios_get, cache_set, lift, log; simpl; rewrite Hmiss; simpl.
  - destruct (outcome (coins_markets up)); simpl; unfold fail, mret, M_ret;
      by rewrite <- ?app_assoc.
  - destruct (outcome (coins_id up id)); simpl; unfold fail, mret, M_ret;
      by rewrite <- ?app_assoc.
  - destruct (outcome (coins_market_chart up id (default "30" days))) as [chart|e];
      simpl; unfold fail, mret, M_ret; [|by rewrite <- ?app_assoc].
    destruct (Candlestick.transform chart); simpl; by rewrite <- ?app_assoc.
Qed.

Lemma rejection_miss_result up r e :
  rejection_of up r = Some e → miss_result up r = Throw e.
Proof.
  destruct r; simpl.
  - destruct (outcome (coins_markets up)); congruence.
  - destruct (outcome (coins_id up id)); congruence.
  - destruct (outcome (coins_market_chart up id (default "30" days))); congruence.
Qed.

End ServerFacts.

(** ** The properties of the specification *)

(** The example of the specification, with three consecutive days as
    [t0], [t1], [t2]. *)
Example transform_three_points :
  Candlestick.transform
    (Candlestick.mkChart
       [ (0, 10%Q); (86400000, 12%Q); (172800000, 9%Q) ]
       [ (0, 100%Q); (86400000, 150%Q); (172800000, 80%Q) ]) =
  Normal
    [ Candlestick.mkPoint "1970-01-02" 10 12 10 12 150;
      Candlestick.mkPoint "1970-01-03" 12 12 9 9 80 ].
Proof. reflexivity. Qed.

(** C1: for an upstream history response with N price points (each with a
    valid timestamp) and a volume for every price point, the transform returns
    exactly N-1 candles, and for every i from 1 to N-1 the candle at output
    position i-1 has open = price[i-1], close = price[i], high = max(open,
    close), low = min(open, close), volume = volume[i] and time = the ISO day
    of price[i]'s timestamp; the first price point only seeds the open of the
    second and yields no candle of its own. *)
Theorem C1_transform_adjacent_pairs (prices volumes : list (Z * Q)) :
  (length prices ≤ length volumes)%nat →
  Forall (fun p => DateTime.validTime p.1 = true) prices →
  ∃ out,
    Candlestick.transform (Candlestick.mkChart prices volumes) = Normal out ∧
    length out = (length prices - 1)%nat ∧
    ∀ i, (1 ≤ i < length prices)%nat →
      ∃ t0 prevPrice t price tv vol date,
        prices !! (i - 1)%nat = Some (t0, prevPrice) ∧
        prices !! i = Some (t, price) ∧
        volumes !! i = Some (tv, vol) ∧
        DateTime.isoDate t = Some date ∧
        date = DateTime.isoDay (DateTime.Day t) ∧
        out !! (i - 1)%nat =
          Some {| Candlestick.time := date;
                  Candlestick.open := prevPrice;
                  Candlestick.high := Qmax prevPrice price;
                  Candlestick.low := Qmin prevPrice price;
                  Candlestick.close := price;
                  Candlestick.volume := vol |}.
Proof.
  intros Hlen Hvalid.
  destruct (transform_points prices volumes Hlen Hvalid) as (out & Hout & Hsize & Hat).
  exists out. repeat split; [done..|].
  intros i Hi. destruct (Hat i Hi) as (c & Hc & t0 & prev & t & price & tv & vol & date & H).
  destruct H as (H1 & H2 & H3 & H4 & ->). exists t0, prev, t, price, tv, vol, date.
  repeat split; [done..| |done].
  rewrite Forall_forall in Hvalid.
  pose proof (Hvalid (t, price) (list_elem_of_lookup_2 _ _ _ H2)) as Ht.
  rewrite (isoDate_day t Ht) in H4. congruence.
Qed.

Lemma C1_transform_adjacent_pairs_witness :
  let prices := [ (0, 10%Q); (86400000, 12%Q); (172800000, 9%Q) ] in
  let volumes := [ (0, 100%Q); (86400000, 150%Q); (172800000, 80%Q) ] in
  (length prices ≤ length volumes)%nat ∧
  Forall (fun p => DateTime.validTime p.1 = true) prices ∧
  ∃ out,
    Candlestick.transform (Candlestick.mkChart prices volumes) = Normal out ∧
    length out = 2%nat ∧
    ∀ i, (1 ≤ i < 3)%nat →
      ∃ t0 prevPrice t price tv vol date,
        prices !! (i - 1)%nat = Some (t0, prevPrice) ∧
        prices !! i = Some (t, price) ∧
        volumes !! i = Some (tv, vol) ∧
        DateTime.isoDate t = Some date ∧
        date = DateTime.isoDay (DateTime.Day t) ∧
        out !! (i - 1)%nat =
          Some {| Candlestick.time := date;
                  Candlestick.open := prevPrice;
                  Candlestick.high := Qmax prevPrice price;
                  Candlestick.low := Qmin prevPrice price;
                  Candlestick.close := price;
                  Candlestick.volume := vol |}.
Proof.
  intros prices volumes.
  split; [simpl; lia|]. split; [repeat constructor|].
  apply (C1_transform_adjacent_pairs prices volumes); [simpl; lia | repeat constructor].
Defined.

(** C2, as the code has it: a call keeps only the client's timestamps that
    are less than 60 s old (a timestamp exactly 60 s old is dropped as well),
    denies without appending when 30 or more remain, and otherwise appends the
    current timestamp and allows. Consequently 30 calls of a fresh client
    within one window are all allowed, a 31st call less than 60 s after the
    first is denied, and a call 60 s or more after the first is allowed
    again. *)
Theorem C2_sliding_window_admission :
  (∀ (ip : string) (now : Z) (rc : gmap string (list Z)),
     RateLimiter.check ip now rc =
       let kept := List.filter (fun t => now - t <? 60000) (default [] (rc !! ip)) in
       if (30 <=? length kept)%nat then (false, <[ip := kept]> rc)
       else (true, <[ip := kept ++ [now]]> rc)) ∧
  (∀ (ip : string) (rc : gmap string (list Z)) (first : Z) (rest : list Z)
     (now31 later : Z),
     default [] (rc !! ip) = [] →
     length (first :: rest) = 30%nat →
     Forall (fun t => first ≤ t ≤ now31) rest →
     first ≤ now31 →
     now31 - first < 60000 →
     60000 ≤ later - first →
     (RateLimiter.check_all
        (RateLimiter.calls ip ((first :: rest) ++ [now31; later])) rc).1 =
       replicate 30 true ++ [false; true]).
Proof.
  split.
  - intros ip now rc. rewrite check_unfold, validRequests_age. reflexivity.
  - intros ip rc first rest now31 later Hfresh Hlen Hrest Hle Hin Hout.
    unfold RateLimiter.calls. rewrite map_app. fold (RateLimiter.calls ip (first :: rest)).
    rewrite check_all_app. cbn [fst].
    destruct (check_all_within ip first now31 (first :: rest) rc) as [Hoks Hwin].
    { unfold RateLimiter.windowMs. lia. }
    { rewrite Hfresh. simpl. constructor; [lia|done]. }
    { rewrite Hfresh, Hlen. done. }
    rewrite Hoks, Hlen. f_equal.
    set (rc1 := (RateLimiter.check_all (RateLimiter.calls ip (first :: rest)) rc).2) in *.
    rewrite Hfresh in Hwin. simpl in Hwin. simpl map.
    rewrite !check_all_cons. cbn [fst snd RateLimiter.check_all].
    assert (Hkeep : RateLimiter.validRequests (now31 - RateLimiter.windowMs)
                      (first :: rest) = first :: rest).
    { apply validRequests_all. constructor; [unfold RateLimiter.windowMs; lia|].
      eapply Forall_impl; [exact Hrest|]. unfold RateLimiter.windowMs. simpl. intros. lia. }
    pose proof (check_verdict ip now31 rc1) as Hv31.
    pose proof (check_lookup ip now31 rc1) as Hl31.
    rewrite Hwin, Hkeep in Hv31, Hl31. rewrite Hlen in Hv31, Hl31.
    change (RateLimiter.max <=? 30)%nat with true in Hv31, Hl31. cbn [negb] in Hv31.
    rewrite Hv31. f_equal.
    rewrite check_verdict, Hl31. cbn [default id].
    assert (Hdrop : (length (RateLimiter.validRequests (later - RateLimiter.windowMs)
                       (first :: rest)) ≤ length rest)%nat).
    { unfold RateLimiter.validRequests. simpl.
      destruct (Z.ltb_spec (later - RateLimiter.windowMs) first) as [Hlt|_].
      - unfold RateLimiter.windowMs in Hlt. lia.
      - apply List.filter_length_le. }
    assert (Hroom : (RateLimiter.max <=? length (RateLimiter.validRequests
                       (later - RateLimiter.windowMs) (first :: rest)))%nat = false).
    { apply Nat.leb_gt. rewrite length_cons in Hlen. unfold RateLimiter.max. lia. }
    by rewrite Hroom.
Qed.

Lemma C2_sliding_window_admission_witness :
  default [] ((∅ : gmap string (list Z)) !! "10.0.0.1") = [] ∧
  length (0 :: replicate 29 1000) = 30%nat ∧
  Forall (fun t => 0 ≤ t ≤ 59999) (replicate 29 1000) ∧
  0 ≤ 59999 ∧ 59999 - 0 < 60000 ∧ 60000 ≤ 60000 - 0 ∧
  (RateLimiter.check_all
     (RateLimiter.calls "10.0.0.1" ((0 :: replicate 29 1000) ++ [59999; 60000])) ∅).1 =
    replicate 30 true ++ [false; true].
Proof.
  assert (Hrest : Forall (fun t => 0 ≤ t ≤ 59999) (replicate 29 1000)).
  { apply Forall_replicate. lia. }
  split; [reflexivity|]. split; [reflexivity|]. split; [exact Hrest|].
  split; [lia|]. split; [lia|]. split; [lia|].
  apply (proj2 C2_sliding_window_admission "10.0.0.1" ∅ 0 (replicate 29 1000) 59999 60000);
    try done; lia.
Defined.

(** C2 as stated fails at the boundary: after 30 calls of one client at time
    0 a call exactly 60 s later finds no timestamp older than 60 s, so the
    rule of the specification denies it, while the code has dropped all 30 and
    allows it. *)
Lemma C2_counterexample :
  let ip := "10.0.0.1" in
  let rc := (RateLimiter.check_all (RateLimiter.calls ip (replicate 30 0)) ∅).2 in
  rc !! ip = Some (replicate 30 0) ∧
  RateLimiter.spec_admit 60000 (replicate 30 0) = (false, replicate 30 0) ∧
  (RateLimiter.check ip 60000 rc).1 = true.
Proof. vm_compute. done. Qed.

(** C7: after every call of the limiter for a client at time [now], the
    list stored for that client holds no timestamp older than [now - 60s];
    after an accepted call it holds at most 30 timestamps; and a call that finds
    30 timestamps left after pruning is rejected and not recorded (the stored
    list is the pruned list). *)
Theorem C7_window_invariant (ip : string) (now : Z) (rc : gmap string (list Z)) :
  let pruned := RateLimiter.validRequests (now - 60000) (default [] (rc !! ip)) in
  ∃ stored,
    (RateLimiter.check ip now rc).2 !! ip = Some stored ∧
    Forall (fun t => ¬ t < now - 60000) stored ∧
    ((RateLimiter.check ip now rc).1 = true → (length stored ≤ 30)%nat) ∧
    (length pruned = 30%nat →
       (RateLimiter.check ip now rc).1 = false ∧ stored = pruned).
Proof.
  intros pruned. rewrite check_verdict, check_lookup.
  change (RateLimiter.validRequests (now - RateLimiter.windowMs) (default [] (rc !! ip)))
    with pruned.
  assert (Hpruned : Forall (fun t => ¬ t < now - 60000) pruned).
  { apply Forall_forall. intros t Ht. apply validRequests_in in Ht. lia. }
  eexists. split; [reflexivity|].
  destruct (Nat.leb_spec RateLimiter.max (length pruned)) as [Hfull|Hroom];
    unfold RateLimiter.max in *; cbn [negb].
  - split; [exact Hpruned|]. split; [intros Hc; discriminate Hc|]. by intros _.
  - split; [apply Forall_app; split; [done|]; apply Forall_singleton; lia|].
    split; [intros _; rewrite length_app; simpl; lia|]. intros Hp. lia.
Qed.

Lemma C7_window_invariant_witness :
  let rc : gmap string (list Z) := {[ "10.0.0.1" := 0 :: replicate 30 50000 ]} in
  let pruned := RateLimiter.validRequests (61000 - 60000) (default [] (rc !! "10.0.0.1")) in
  pruned = replicate 30 50000 ∧
  ∃ stored,
    (RateLimiter.check "10.0.0.1" 61000 rc).2 !! "10.0.0.1" = Some stored ∧
    Forall (fun t => ¬ t < 61000 - 60000) stored ∧
    ((RateLimiter.check "10.0.0.1" 61000 rc).1 = true → (length stored ≤ 30)%nat) ∧
    (length pruned = 30%nat →
       (RateLimiter.check "10.0.0.1" 61000 rc).1 = false ∧ stored = pruned).
Proof.
  intros rc pruned. split; [reflexivity|].
  exact (C7_window_invariant "10.0.0.1" 61000 rc).
Defined.

Lemma check_all_dom (calls : list (string * Z)) : ∀ rc : gmap string (list Z),
  dom (RateLimiter.check_all calls rc).2 = list_to_set calls.*1 ∪ dom rc.
Proof.
  induction calls as [|[ip now] calls IH]; intros rc.
  - simpl. by rewrite union_empty_l_L.
  - rewrite check_all_cons. cbn [snd]. rewrite IH, check_dom. simpl.
    by rewrite (assoc_L (∪)), (comm_L (∪) _ {[ip]}).
Qed.

(** C8: over every sequence of limiter calls the set of clients in the
    [requestCounts] map only grows: it is the clients present before together
    with every client that called, whatever became of their timestamp lists;
    calls from n distinct clients leave n entries in a map that started
    empty. *)
Theorem C8_clients_never_removed (calls : list (string * Z))
    (rc : gmap string (list Z)) :
  dom rc ⊆ dom (RateLimiter.check_all calls rc).2 ∧
  (∀ ip now, (ip, now) ∈ calls → ip ∈ dom (RateLimiter.check_all calls rc).2) ∧
  (NoDup calls.*1 → size (RateLimiter.check_all calls ∅).2 = length calls).
Proof.
  repeat split.
  - rewrite check_all_dom. apply union_subseteq_r.
  - intros ip now Hin. rewrite check_all_dom. apply elem_of_union_l.
    apply elem_of_list_to_set, list_elem_of_fmap. by exists (ip, now).
  - intros Hnodup. rewrite <- size_dom, check_all_dom, dom_empty_L, union_empty_r_L.
    rewrite size_list_to_set by done. by rewrite length_fmap.
Qed.

Lemma C8_clients_never_removed_witness :
  let calls := [ ("10.0.0.1", 0); ("10.0.0.2", 5); ("10.0.0.3", 70000) ] in
  NoDup calls.*1 ∧ size (RateLimiter.check_all calls ∅).2 = 3%nat.
Proof.
  intros calls.
  assert (Hnodup : NoDup calls.*1)
    by (refine (bool_decide_unpack (NoDup calls.*1) _); vm_compute; exact I).
  split; [exact Hnodup|].
  exact (proj2 (proj2 (C8_clients_never_removed calls ∅)) Hnodup).
Defined.

(** C3: a request the rate limiter denies is answered with status 429 and
    the body [{error: "Too many requests, please try again later."}]; it is
    not recorded (the client's stored list is the pruned list), and the request
    performs no cache lookup, no cache write and no upstream fetch. *)
Theorem C3_denied_request (up : Server.upstream) (req : Server.request)
    (w : Server.world) :
  (RateLimiter.check (Server.ip req) (Server.now req) (Server.requestCounts w)).1 = false →
  ∃ w',
    Server.serve up req w =
      (Normal (Server.mkHttpReply 429
                 (JObj [ ("error", JStr "Too many requests, please try again later.") ])),
       w') ∧
    Server.requestCounts w' !! Server.ip req =
      Some (RateLimiter.validRequests (Server.now req - 60000)
              (default [] (Server.requestCounts w !! Server.ip req))) ∧
    Server.trace w' = [] ∧
    Server.cache w' = Server.cache w.
Proof.
  intros Hdeny. eexists. split; [by apply serve_denied|].
  unfold Server.admitted_world. simpl. split; [|done].
  rewrite check_lookup. rewrite check_verdict in Hdeny.
  apply negb_false_iff in Hdeny. by rewrite Hdeny.
Qed.

Lemma C3_denied_request_witness :
  let req := Server.mkRequest "10.0.0.1" 1000 Server.Cryptocurrencies in
  (RateLimiter.check "10.0.0.1" 1000 (Server.requestCounts Scenario.saturated)).1 = false ∧
  ∃ w',
    Server.serve Scenario.healthy req Scenario.saturated =
      (Normal (Server.mkHttpReply 429
                 (JObj [ ("error", JStr "Too many requests, please try again later.") ])),
       w') ∧
    Server.requestCounts w' !! "10.0.0.1" =
      Some (RateLimiter.validRequests (1000 - 60000)
              (default [] (Server.requestCounts Scenario.saturated !! "10.0.0.1"))) ∧
    Server.trace w' = [] ∧
    Server.cache w' = Server.cache Scenario.saturated.
Proof.
  intros req. split; [vm_compute; reflexivity|].
  apply (C3_denied_request Scenario.healthy req Scenario.saturated).
  vm_compute. reflexivity.
Defined.

(** C4: when the upstream request of an admitted request fails, on any
    of the three routes, the handler answers with the upstream status when the
    error carries a response (a real status is never 0) and with 500 otherwise;
    the body has the route's fixed [error] text and a [details] field with the
    upstream payload, or with the error message when there is no payload; the
    request made exactly one upstream attempt and wrote nothing to the
    cache. *)
Theorem C4_upstream_failure (up : Server.upstream) (req : Server.request)
    (w : Server.world) (e : js_error) :
  (RateLimiter.check (Server.ip req) (Server.now req) (Server.requestCounts w)).1 = true →
  truthy_opt (TtlCache.get (Server.cacheKey_of (Server.target req)) (Server.now req)
                (Server.cache w)) = false →
  Server.rejection_of up (Server.target req) = Some e →
  ∃ code details w',
    Server.serve up req w =
      (Normal (Server.mkHttpReply code
                 (JObj [ ("error", JStr (Server.failure_message (Server.target req)));
                         ("details", details) ])),
       w') ∧
    match response e with
    | Some upstream_response =>
      (status upstream_response ≠ 0 → code = status upstream_response) ∧
      details = (if truthy (data upstream_response) then data upstream_response
                 else JStr (message e))
    | None => code = 500 ∧ details = JStr (message e)
    end ∧
    List.filter Server.is_fetch (Server.trace w') = [Server.fetch_of (Server.target req)] ∧
    Server.cache w' = Server.cache w.
Proof.
  intros Hok Hmiss Hrej.
  rewrite serve_admitted by done. rewrite handler_miss by done.
  rewrite (rejection_miss_result _ _ _ Hrej).
  eexists _, _, _. split; [reflexivity|]. simpl. split; [|split; [|done]].
  - unfold Server.error_status, Server.error_details.
    destruct (response e) as [r|]; [|done]. split; [|done].
    intros Hnz. by destruct (Z.eqb_spec (status r) 0).
  - by destruct (Server.target req).
Qed.

Lemma C4_upstream_failure_witness :
  let req := Server.mkRequest "10.0.0.1" 1000 Server.Cryptocurrencies in
  ∃ w',
    Server.serve Scenario.failing req Scenario.fresh =
      (Normal (Server.mkHttpReply 500
                 (JObj [ ("error", JStr "Failed to fetch cryptocurrency data");
                         ("details", JObj [ ("status", JStr "internal error") ]) ])),
       w') ∧
    List.filter Server.is_fetch (Server.trace w') = [Server.fetch_of Server.Cryptocurrencies].
Proof.
  intros req.
  destruct (C4_upstream_failure Scenario.failing req Scenario.fresh
              (mkError "AxiosError"
                 (Some (mkHttpResponse 500 (JObj [ ("status", JStr "internal error") ])))
                 "Request failed with status code 500"))
    as (code & details & w' & Hserve & Hreply & Hfetch & _).
  - vm_compute. reflexivity.
  - vm_compute. reflexivity.
  - reflexivity.
  - simpl in Hreply. destruct Hreply as [Hcode ->]. rewrite Hcode in Hserve by lia.
    exists w'. split; [exact Hserve|exact Hfetch].
Defined.

(** C5: in the cache as the specification describes it, [set(k, v)]
    overwrites whatever [k] held; a [get(k)] less than 300 s after the set
    returns [v], a [get(k)] 300 s or more after it returns absent; sets of
    other keys in between change nothing for [k], so repeated gets before
    expiry all return the same value; and [get] always returns, a value or
    absent. *)
Theorem C5_cache_ttl (c : gmap string (json * Z)) (k : string) (v : json)
    (t_set : Z) :
  let c' := TtlCache.set k v t_set c in
  (∀ now, now - t_set < 300 * 1000 → TtlCache.get k now c' = Some v) ∧
  (∀ now, 300 * 1000 ≤ now - t_set → TtlCache.get k now c' = None) ∧
  (∀ now k2 v2 t2, k2 ≠ k →
     TtlCache.get k now (TtlCache.set k2 v2 t2 c') = TtlCache.get k now c') ∧
  (∀ now1 now2, now1 - t_set < 300 * 1000 → now2 - t_set < 300 * 1000 →
     TtlCache.get k now1 c' = TtlCache.get k now2 c').
Proof.
  intros c'. unfold c', TtlCache.get, TtlCache.set, TtlCache.ttlMs, TtlCache.stdTTL.
  rewrite lookup_insert_eq. repeat split.
  - intros now Hage. by destruct (Z.ltb_spec (now - t_set) (300 * 1000)); [|lia].
  - intros now Hage. by destruct (Z.ltb_spec (now - t_set) (300 * 1000)); [lia|].
  - intros now k2 v2 t2 Hne. by rewrite lookup_insert_ne, lookup_insert_eq.
  - intros now1 now2 H1 H2.
    destruct (Z.ltb_spec (now1 - t_set) (300 * 1000)); [|lia].
    by destruct (Z.ltb_spec (now2 - t_set) (300 * 1000)); [|lia].
Qed.

Lemma C5_cache_ttl_witness :
  let c' := TtlCache.set "cryptocurrencies" (JArr []) 1000
              (TtlCache.set "cryptocurrencies" JNull 0 ∅) in
  300999 - 1000 < 300 * 1000 ∧ 300 * 1000 ≤ 301000 - 1000 ∧
  TtlCache.get "cryptocurrencies" 300999 c' = Some (JArr []) ∧
  TtlCache.get "cryptocurrencies" 301000 c' = None.
Proof.
  intros c'. split; [lia|]. split; [lia|].
  pose proof (C5_cache_ttl (TtlCache.set "cryptocurrencies" JNull 0 ∅)
                "cryptocurrencies" (JArr []) 1000) as (Hfresh & Hexpired & _).
  split; [apply Hfresh; lia | apply Hexpired; lia].
Defined.

(** C6, as the code has it: an admitted request whose cache lookup returns
    a truthy value (every JSON array or object is one) is answered with that
    value after the lookup alone, with no upstream fetch and no cache write;
    when the lookup returns nothing or a falsy value, the handler fetches
    upstream once and, when that succeeds, stores the (on the history route
    transformed) result under the key and answers with it. *)
Theorem C6_cache_first (up : Server.upstream) (req : Server.request)
    (w : Server.world) :
  let key := Server.cacheKey_of (Server.target req) in
  let cachedData := TtlCache.get key (Server.now req) (Server.cache w) in
  (RateLimiter.check (Server.ip req) (Server.now req) (Server.requestCounts w)).1 = true →
  (truthy_opt cachedData = true →
     ∃ v w',
       cachedData = Some v ∧
       Server.serve up req w = (Normal (Server.res_json v), w') ∧
       Server.trace w' = [Server.CacheGet key] ∧
       Server.cache w' = Server.cache w) ∧
  (truthy_opt cachedData = false →
     ∀ v, Server.miss_result up (Server.target req) = Normal v →
       ∃ w',
         Server.serve up req w = (Normal (Server.res_json v), w') ∧
         Server.trace w' =
           [Server.CacheGet key; Server.fetch_of (Server.target req);
            Server.CacheSet key v] ∧
         Server.cache w' =
           TtlCache.set key v
             (Server.now req + Server.latency_of up (Server.target req))
             (Server.cache w)).
Proof.
  intros key cachedData Hok. split.
  - intros Hhit. rewrite serve_admitted by done. rewrite handler_hit by done.
    fold key. change (TtlCache.get key _ _) with cachedData.
    destruct cachedData as [v|]; [|done]. exists v. by eexists.
  - intros Hmiss v Hv. rewrite serve_admitted by done. rewrite handler_miss by done.
    rewrite Hv. by eexists.
Qed.

Lemma C6_cache_first_witness :
  let first := Server.mkRequest "10.0.0.1" 0 (Server.Cryptocurrency "bitcoin") in
  let second := Server.mkRequest "10.0.0.2" 5000 (Server.Cryptocurrency "bitcoin") in
  let w1 := (Server.serve Scenario.healthy first Scenario.fresh).2 in
  Server.trace w1 =
    [Server.CacheGet "crypto_bitcoin";
     Server.fetch_of (Server.Cryptocurrency "bitcoin");
     Server.CacheSet "crypto_bitcoin" (JObj [ ("id", JStr "bitcoin") ])] ∧
  ∃ w2,
    Server.serve Scenario.healthy second w1 =
      (Normal (Server.res_json (JObj [ ("id", JStr "bitcoin") ])), w2) ∧
    Server.trace w2 = [Server.CacheGet "crypto_bitcoin"].
Proof.
  intros first second w1. split.
  - destruct (proj2 (C6_cache_first Scenario.healthy first Scenario.fresh
                       ltac:(vm_compute; reflexivity))
                ltac:(vm_compute; reflexivity) (JObj [ ("id", JStr "bitcoin") ])
                ltac:(reflexivity)) as (w' & Hserve & Htrace & _).
    unfold w1. rewrite Hserve. exact Htrace.
  - destruct (proj1 (C6_cache_first Scenario.healthy second w1
                       ltac:(vm_compute; reflexivity))
                ltac:(vm_compute; reflexivity)) as (v & w2 & Hv & Hserve & Htrace & _).
    assert (v = JObj [ ("id", JStr "bitcoin") ]) as ->.
    { vm_compute in Hv. congruence. }
    exists w2. split; [exact Hserve|exact Htrace].
Defined.

(** C6 as stated fails for a falsy cached value: an upstream answer with
    an empty body is cached as the empty string; the next request finds it in
    the cache, a present value, and still fetches upstream and writes the cache
    again. *)
Lemma C6_counterexample :
  let first := Server.mkRequest "10.0.0.1" 0 (Server.Cryptocurrency "bitcoin") in
  let second := Server.mkRequest "10.0.0.1" 5000 (Server.Cryptocurrency "bitcoin") in
  let w1 := (Server.serve Scenario.empty_body first Scenario.fresh).2 in
  (RateLimiter.check "10.0.0.1" 5000 (Server.requestCounts w1)).1 = true ∧
  TtlCache.get "crypto_bitcoin" 5000 (Server.cache w1) = Some (JStr "") ∧
  Server.trace (Server.serve Scenario.empty_body second w1).2 =
    [Server.CacheGet "crypto_bitcoin";
     Server.fetch_of (Server.Cryptocurrency "bitcoin");
     Server.CacheSet "crypto_bitcoin" (JStr "")].
Proof. vm_compute. done. Qed.

(** C9: the cache key of the history route, ["history_" + id + "_" + days],
    is not injective: id ["a_b"] with days ["7"] and id ["a"] with days
    ["b_7"] get the same key. Whenever two history requests have the same key
    and the first one has filled the cache from the upstream, the second one,
    arriving before the entry expires, is answered with the candlesticks of
    the first and makes no upstream request. *)
Theorem C9_history_key_collision :
  ("a_b", Some "7") ≠ ("a", Some "b_7") ∧
  Server.history_cacheKey "a_b" (Some "7") = Server.history_cacheKey "a" (Some "b_7") ∧
  ∀ (up : Server.upstream) (w : Server.world)
    (ip1 : string) (now1 : Z) (id1 : string) (days1 : option string)
    (ip2 : string) (now2 : Z) (id2 : string) (days2 : option string)
    (chart : Candlestick.market_chart) (candles : list Candlestick.point),
    let first := Server.mkRequest ip1 now1 (Server.History id1 days1) in
    let second := Server.mkRequest ip2 now2 (Server.History id2 days2) in
    let answer := Server.coins_market_chart up id1 (default "30" days1) in
    let w1 := (Server.serve up first w).2 in
    Server.history_cacheKey id1 days1 = Server.history_cacheKey id2 days2 →
    (RateLimiter.check ip1 now1 (Server.requestCounts w)).1 = true →
    truthy_opt (TtlCache.get (Server.history_cacheKey id1 days1) now1 (Server.cache w))
      = false →
    Server.outcome answer = Normal chart →
    Candlestick.transform chart = Normal candles →
    (RateLimiter.check ip2 now2 (Server.requestCounts w1)).1 = true →
    now2 - (now1 + Server.latency answer) < 300 * 1000 →
    ∃ w2,
      Server.serve up second w1 =
        (Normal (Server.res_json (Candlestick.to_json candles)), w2) ∧
      Server.trace w2 = [Server.CacheGet (Server.history_cacheKey id2 days2)].
Proof.
  split; [intros [=]|]. split; [reflexivity|].
  intros up w ip1 now1 id1 days1 ip2 now2 id2 days2 chart candles
    first second answer w1 Hkey Hok1 Hmiss Hup Htr Hok2 Hfresh.
  assert (Hw1 : Server.cache w1 =
                  TtlCache.set (Server.history_cacheKey id1 days1)
                    (Candlestick.to_json candles) (now1 + Server.latency answer)
                    (Server.cache w)).
  { unfold w1. rewrite serve_admitted by done. rewrite handler_miss by done.
    simpl. fold answer. by rewrite Hup, Htr. }
  assert (Hget : TtlCache.get (Server.history_cacheKey id2 days2) now2 (Server.cache w1)
                 = Some (Candlestick.to_json candles)).
  { rewrite Hw1, <- Hkey. unfold TtlCache.get, TtlCache.set. rewrite lookup_insert_eq.
    unfold TtlCache.ttlMs, TtlCache.stdTTL.
    by destruct (Z.ltb_spec (now2 - (now1 + Server.latency answer)) (300 * 1000)); [|lia]. }
  rewrite serve_admitted by done. rewrite handler_hit by (simpl; by rewrite Hget).
  simpl. rewrite Hget. by eexists.
Qed.

Lemma C9_history_key_collision_witness :
  let first := Server.mkRequest "10.0.0.1" 0 (Server.History "a_b" (Some "7")) in
  let second := Server.mkRequest "10.0.0.2" 1000 (Server.History "a" (Some "b_7")) in
  let w1 := (Server.serve Scenario.healthy first Scenario.fresh).2 in
  ∃ w2,
    Server.serve Scenario.healthy second w1 =
      (Normal (Server.res_json
                 (Candlestick.to_json
                    [ Candlestick.mkPoint "1970-01-02" 10 12 10 12 150;
                      Candlestick.mkPoint "1970-01-03" 12 12 9 9 80 ])), w2) ∧
    Server.trace w2 = [Server.CacheGet "history_a_b_7"].
Proof.
  intros first second w1.
  apply (proj2 (proj2 C9_history_key_collision) Scenario.healthy Scenario.fresh
           "10.0.0.1" 0 "a_b" (Some "7") "10.0.0.2" 1000 "a" (Some "b_7")
           Scenario.three_days); try (vm_compute; reflexivity).
Defined.

(** C10: the transform reads [volumes[i]] for every index of [prices]
    without a length guard. When [total_volumes] is shorter than [prices] the
    transform throws; the history handler catches the error and answers with
    status 500 and the "Failed to fetch historical price data" body, caching
    and returning no candlesticks at all. When there are at least as many
    volumes as prices, no volume access is out of bounds, that error cannot
    occur, and with valid timestamps the transform returns. *)
Theorem C10_unguarded_volume_index (chart : Candlestick.market_chart) :
  let prices := Candlestick.prices chart in
  let volumes := Candlestick.total_volumes chart in
  ((length volumes < length prices)%nat →
     (∃ e, Candlestick.transform chart = Throw e ∧ response e = None) ∧
     ∀ (up : Server.upstream) (w : Server.world) (ip : string) (now : Z)
       (id : string) (days : option string),
       let req := Server.mkRequest ip now (Server.History id days) in
       (RateLimiter.check ip now (Server.requestCounts w)).1 = true →
       truthy_opt (TtlCache.get (Server.history_cacheKey id days) now (Server.cache w))
         = false →
       Server.outcome (Server.coins_market_chart up id (default "30" days)) = Normal chart →
       ∃ details w',
         Server.serve up req w =
           (Normal (Server.mkHttpReply 500
                      (JObj [ ("error", JStr "Failed to fetch historical price data");
                              ("details", JStr details) ])), w') ∧
         Server.cache w' = Server.cache w ∧
         List.filter Server.is_cache_write (Server.trace w') = []) ∧
  ((length prices ≤ length volumes)%nat →
     (∀ i, (i < length prices)%nat → is_Some (volumes !! i)) ∧
     Candlestick.transform chart ≠ Throw TypeError_undefined ∧
     (Forall (fun p => DateTime.validTime p.1 = true) prices →
        ∃ out, Candlestick.transform chart = Normal out)).
Proof.
  intros prices volumes. split.
  - intros Hshort. destruct (transform_short_volumes chart Hshort) as (e & He & Hkind).
    assert (Hresp : response e = None) by (by destruct Hkind as [->| ->]).
    split; [by exists e|].
    intros up w ip now id days req Hok Hmiss Hup.
    rewrite serve_admitted by done. rewrite handler_miss by done.
    simpl. rewrite Hup, He. unfold Server.error_status, Server.error_details.
    rewrite Hresp. exists (message e). eexists. split; [reflexivity|].
    split; reflexivity.
  - intros Hlen. split; [|split].
    + intros i Hi. apply lookup_lt_is_Some_2. lia.
    + intros Hthrow. by apply transform_enough_volumes in Hthrow.
    + intros Hvalid. destruct chart as [ps vs].
      destruct (transform_points ps vs Hlen Hvalid) as (out & Hout & _). by exists out.
Qed.

Lemma C10_unguarded_volume_index_witness :
  let req := Server.mkRequest "10.0.0.1" 0 (Server.History "bitcoin" None) in
  (length (Candlestick.total_volumes Scenario.short_volumes)
     < length (Candlestick.prices Scenario.short_volumes))%nat ∧
  ∃ details w',
    Server.serve Scenario.truncated req Scenario.fresh =
      (Normal (Server.mkHttpReply 500
                 (JObj [ ("error", JStr "Failed to fetch historical price data");
                         ("details", JStr details) ])), w') ∧
    Server.cache w' = Server.cache Scenario.fresh ∧
    List.filter Server.is_cache_write (Server.trace w') = [].
Proof.
  intros req. split; [simpl; lia|].
  apply (proj2 (proj1 (C10_unguarded_volume_index Scenario.short_volumes)
                  ltac:(simpl; lia))
           Scenario.truncated Scenario.fresh "10.0.0.1" 0 "bitcoin" None);
    vm_compute; reflexivity.
Defined.

(** ** Further properties of the rate limiter *)

Section LimiterTraffic.

Import RateLimiter.

Implicit Types (rc : gmap string (list Z)) (ip : string) (now : Z).

Lemma validRequests_twice (start1 start2 : Z) (l : list Z) :
  start1 ≤ start2 →
  validRequests start2 (validRequests start1 l) = validRequests start2 l.
Proof.
  intros Hle. unfold validRequests. induction l as [|t l IH]; [done|]. simpl.
  destruct (Z.ltb_spec start1 t) as [H1|H1]; simpl.
  - by rewrite IH.
  - rewrite IH. destruct (Z.ltb_spec start2 t); [lia|done].
Qed.

Lemma validRequests_none (start : Z) (l : list Z) :
  Forall (fun t => t ≤ start) l → validRequests start l = [].
Proof.
  induction 1 as [|t l Ht _ IH]; [done|]. unfold validRequests in *. simpl.
  destruct (Z.ltb_spec start t); [lia|done].
Qed.

Lemma check_all_lookup_others ip (others : list (string * Z)) : ∀ rc,
  Forall (fun c => c.1 ≠ ip) others →
  (check_all others rc).2 !! ip = rc !! ip.
Proof.
  induction others as [|[ip' now'] others IH]; intros rc Hne; [done|].
  apply Forall_cons in Hne as [Hne Hrest]. rewrite check_all_cons. cbn [snd].
  rewrite IH by done. by apply check_lookup_ne.
Qed.

End LimiterTraffic.

(** X1: clients do not share a quota. Calls of other clients, however many,
    leave a client's stored timestamps as they were and do not change the
    verdict of its next call. *)
Theorem X1_clients_isolated (ip : string) (others : list (string * Z))
    (rc : gmap string (list Z)) (now : Z) :
  Forall (fun c => c.1 ≠ ip) others →
  (RateLimiter.check_all others rc).2 !! ip = rc !! ip ∧
  (RateLimiter.check ip now (RateLimiter.check_all others rc).2).1 =
    (RateLimiter.check ip now rc).1.
Proof.
  intros Hne. pose proof (check_all_lookup_others ip others rc Hne) as Hsame.
  split; [done|]. by rewrite !check_verdict, Hsame.
Qed.

Lemma X1_clients_isolated_witness :
  let rc : gmap string (list Z) := {[ "10.0.0.1" := replicate 29 0 ]} in
  let others := RateLimiter.calls "10.0.0.2" (replicate 40 5) in
  Forall (fun c => c.1 ≠ "10.0.0.1") others ∧
  (RateLimiter.check_all others rc).2 !! "10.0.0.1" = rc !! "10.0.0.1" ∧
  (RateLimiter.check "10.0.0.1" 10 (RateLimiter.check_all others rc).2).1 =
    (RateLimiter.check "10.0.0.1" 10 rc).1.
Proof.
  intros rc others.
  assert (Hne : Forall (fun c => c.1 ≠ "10.0.0.1") others).
  { unfold others, RateLimiter.calls. apply Forall_fmap, Forall_replicate. done. }
  split; [exact Hne|]. exact (X1_clients_isolated "10.0.0.1" others rc 10 Hne).
Defined.

(** X2: a denied call leaves no mark. When a call is denied, any later
    call of that client (clock not running backwards) gets the verdict and
    leaves the state it would have without the denied call. *)
Theorem X2_denied_call_leaves_no_mark (ip : string) (now later : Z)
    (rc : gmap string (list Z)) :
  (RateLimiter.check ip now rc).1 = false →
  now ≤ later →
  RateLimiter.check ip later (RateLimiter.check ip now rc).2 =
    RateLimiter.check ip later rc.
Proof.
  intros Hdeny Hle. rewrite check_verdict in Hdeny. apply negb_false_iff in Hdeny.
  rewrite (check_unfold ip later (RateLimiter.check ip now rc).2).
  rewrite check_lookup, Hdeny. cbn [default].
  rewrite (check_unfold ip now rc). cbv zeta. rewrite Hdeny.
  rewrite (check_unfold ip later rc). cbv zeta. cbn [snd id].
  rewrite validRequests_twice by (unfold RateLimiter.windowMs; lia).
  rewrite !insert_insert_eq. reflexivity.
Qed.

Lemma X2_denied_call_leaves_no_mark_witness :
  let rc : gmap string (list Z) := {[ "10.0.0.1" := replicate 30 0 ]} in
  (RateLimiter.check "10.0.0.1" 100 rc).1 = false ∧ 100 ≤ 60000 ∧
  RateLimiter.check "10.0.0.1" 60000 (RateLimiter.check "10.0.0.1" 100 rc).2 =
    RateLimiter.check "10.0.0.1" 60000 rc.
Proof.
  intros rc. split; [vm_compute; reflexivity|]. split; [lia|].
  apply (X2_denied_call_leaves_no_mark "10.0.0.1" 100 60000 rc); [vm_compute; reflexivity|lia].
Defined.

(** X3: 60 s of silence reset a client. A call that comes 60 s or more
    after every timestamp on record for the client is allowed, and the record
    then holds that call alone. *)
Theorem X3_silence_resets_window (ip : string) (now : Z) (rc : gmap string (list Z)) :
  Forall (fun t => t + 60000 ≤ now) (default [] (rc !! ip)) →
  RateLimiter.check ip now rc = (true, <[ip := [now]]> rc).
Proof.
  intros Hold. rewrite check_unfold. cbv zeta.
  rewrite validRequests_none; [done|].
  eapply Forall_impl; [exact Hold|]. unfold RateLimiter.windowMs. simpl. intros. lia.
Qed.

Lemma X3_silence_resets_window_witness :
  let rc : gmap string (list Z) := {[ "10.0.0.1" := replicate 30 0 ]} in
  Forall (fun t => t + 60000 ≤ 60000) (default [] (rc !! "10.0.0.1")) ∧
  RateLimiter.check "10.0.0.1" 60000 rc = (true, <["10.0.0.1" := [60000]]> rc).
Proof.
  intros rc.
  assert (Hold : Forall (fun t => t + 60000 ≤ 60000) (default [] (rc !! "10.0.0.1"))).
  { change (default [] (rc !! "10.0.0.1")) with (replicate 30 0).
    apply Forall_replicate. lia. }
  split; [exact Hold|]. exact (X3_silence_resets_window "10.0.0.1" 60000 rc Hold).
Defined.

Section LimiterInvariant.

Import RateLimiter.

(** Every stored list has between 1 and [max] timestamps. *)
Let bounded (rc : gmap string (list Z)) : Prop :=
  ∀ ip l, rc !! ip = Some l → (1 ≤ length l ≤ max)%nat.

Lemma check_bounded ip now (rc : gmap string (list Z)) :
  bounded rc → bounded (check ip now rc).2.
Proof.
  intros Hrc ip' l. destruct (decide (ip = ip')) as [<-|Hne].
  - rewrite check_lookup.
    pose proof (validRequests_length (now - windowMs) (default [] (rc !! ip))) as Hle.
    assert (Hold : (length (default [] (rc !! ip)) ≤ max)%nat).
    { destruct (rc !! ip) as [l0|] eqn:Hl0; simpl; [|lia]. apply (Hrc ip l0 Hl0). }
    destruct (Nat.leb_spec max
                (length (validRequests (now - windowMs) (default [] (rc !! ip)))))
      as [Hfull|Hroom]; intros Heq; apply (inj Some) in Heq; subst l; unfold max in *.
    + lia.
    + rewrite length_app. simpl. lia.
  - rewrite check_lookup_ne by done. apply Hrc.
Qed.

Lemma check_all_bounded (calls : list (string * Z)) : ∀ rc : gmap string (list Z),
  bounded rc → bounded (check_all calls rc).2.
Proof.
  induction calls as [|[ip now] calls IH]; intros rc Hrc; [done|].
  rewrite check_all_cons. cbn [snd]. by apply IH, check_bounded.
Qed.

Lemma empty_bounded : bounded ∅.
Proof. intros ip l. by rewrite lookup_empty. Qed.

End LimiterInvariant.

(** X4: in every state the limiter reaches from the empty map, whatever the
    clients, the arrival times and their order, each client on record has at
    least one and at most 30 timestamps; no entry is ever left empty. *)
Theorem X4_reachable_windows_bounded (calls : list (string * Z)) (ip : string)
    (l : list Z) :
  (RateLimiter.check_all calls ∅).2 !! ip = Some l →
  (1 ≤ length l ≤ 30)%nat.
Proof. apply (check_all_bounded calls ∅ empty_bounded). Qed.

Lemma X4_reachable_windows_bounded_witness :
  let calls := RateLimiter.calls "10.0.0.1" (replicate 45 7) in
  (RateLimiter.check_all calls ∅).2 !! "10.0.0.1" = Some (replicate 30 7) ∧
  (1 ≤ length (replicate 30 7) ≤ 30)%nat.
Proof.
  intros calls.
  assert (H : (RateLimiter.check_all calls ∅).2 !! "10.0.0.1" = Some (replicate 30 7))
    by (vm_compute; reflexivity).
  split; [exact H|].
  exact (X4_reachable_windows_bounded calls "10.0.0.1" (replicate 30 7) H).
Defined.

Section SlidingWindow.

Import RateLimiter Traffic.

Variable ip : string.

Lemma admitted_times_cons (t : Z) (times : list Z) (rc : gmap string (list Z)) :
  admitted_times ip (t :: times) rc =
    (if (check ip t rc).1 then [t] else []) ++ admitted_times ip times (check ip t rc).2.
Proof.
  unfold admitted_times, calls. simpl map. rewrite check_all_cons. cbn [fst].
  simpl. by destruct (check ip t rc).1.
Qed.

Lemma filter_length_mono {A : Type} (P Q : A → bool) (l : list A) :
  (∀ x, x ∈ l → P x = true → Q x = true) →
  (length (List.filter P l) ≤ length (List.filter Q l))%nat.
Proof.
  induction l as [|x l IH]; intros HPQ; [done|]. simpl.
  assert (IH' : (length (List.filter P l) ≤ length (List.filter Q l))%nat).
  { apply IH. intros y Hy. apply HPQ. by right. }
  destruct (P x) eqn:HP.
  - rewrite (HPQ x) by (done || by left). simpl. lia.
  - destruct (Q x); simpl; lia.
Qed.

(** The state that the induction carries: the stored list is the part of the
    admitted times that the last call kept, no admitted time lies after the
    last call, and no window holds more than [max] of them. *)
Lemma window_bound_from (times : list Z) : ∀ (rc : gmap string (list Z))
    (admitted : list Z) (last : Z),
  StronglySorted Z.le times →
  Forall (fun t => last ≤ t) times →
  default [] (rc !! ip) = validRequests (last - windowMs) admitted →
  Forall (fun t => t ≤ last) admitted →
  (∀ T, (length (List.filter (in_window T) admitted) ≤ max)%nat) →
  ∀ T, (length (List.filter (in_window T)
                  (admitted ++ admitted_times ip times rc)) ≤ max)%nat.
Proof.
  induction times as [|now times IH];
    intros rc admitted last Hsorted Hlast Hstored Hpast Hbound T.
  - unfold admitted_times. simpl. rewrite app_nil_r. apply Hbound.
  - apply StronglySorted_inv in Hsorted as [Hsorted Hnext].
    apply Forall_cons in Hlast as [Hnow _].
    rewrite admitted_times_cons.
    pose proof (check_verdict ip now rc) as Hv.
    pose proof (check_lookup ip now rc) as Hl.
    rewrite Hstored, validRequests_twice in Hv, Hl by lia.
    destruct (Nat.leb_spec max (length (validRequests (now - windowMs) admitted)))
      as [Hfull|Hroom]; cbn [negb] in Hv; rewrite Hv; cbn [app].
    + apply (IH _ admitted now); try done.
      * by rewrite Hl.
      * eapply Forall_impl; [exact Hpast|]. simpl. intros. lia.
    + rewrite cons_middle, (assoc_L (++)).
      apply (IH _ (admitted ++ [now]) now); try done.
      * rewrite Hl. cbn [default]. unfold validRequests.
        rewrite List.filter_app. simpl.
        destruct (Z.ltb_spec (now - windowMs) now) as [_|Hc]; [done|].
        unfold windowMs in Hc. lia.
      * apply Forall_app. split; [|by apply Forall_singleton].
        eapply Forall_impl; [exact Hpast|]. simpl. intros. lia.
      * intros T'. rewrite List.filter_app, length_app. simpl.
        destruct (in_window T' now) eqn:Hin; simpl; [|specialize (Hbound T'); lia].
        assert (Hsub : (length (List.filter (in_window T') admitted)
                        ≤ length (validRequests (now - windowMs) admitted))%nat).
        { apply filter_length_mono. intros t Ht Ht'. unfold in_window in *.
          apply andb_true_iff in Hin as [_ Hin]. apply andb_true_iff in Ht' as [Ht' _].
          apply Z.ltb_lt. apply Z.ltb_lt in Ht'. apply Z.leb_le in Hin. lia. }
        lia.
Qed.

End SlidingWindow.

(** X5: the quota holds for every window. When a client without a record
    calls at times that do not decrease, then among its calls that the limiter
    lets through no more than 30 arrive in any span of 60 s, wherever the span
    is laid. *)
Theorem X5_at_most_30_per_window (ip : string) (times : list Z)
    (rc : gmap string (list Z)) (T : Z) :
  default [] (rc !! ip) = [] →
  StronglySorted Z.le times →
  (length (List.filter (Traffic.in_window T) (Traffic.admitted_times ip times rc))
   ≤ 30)%nat.
Proof.
  intros Hfresh Hsorted.
  destruct times as [|first times].
  - unfold Traffic.admitted_times. simpl. lia.
  - apply (window_bound_from ip (first :: times) rc [] first); try done.
    + constructor; [lia|]. by apply StronglySorted_inv in Hsorted as [_ ?].
    + simpl. lia.
Qed.

Lemma X5_at_most_30_per_window_witness :
  let times := replicate 40 1000 ++ [30000; 61000; 61001] in
  default [] ((∅ : gmap string (list Z)) !! "10.0.0.1") = [] ∧
  StronglySorted Z.le times ∧
  Traffic.admitted_times "10.0.0.1" times ∅ = replicate 30 1000 ++ [61000; 61001] ∧
  (length (List.filter (Traffic.in_window 61001)
             (Traffic.admitted_times "10.0.0.1" times ∅)) ≤ 30)%nat.
Proof.
  intros times.
  assert (Hsorted : StronglySorted Z.le times).
  { refine (bool_decide_unpack (StronglySorted Z.le times) _). vm_compute. exact I. }
  split; [reflexivity|]. split; [exact Hsorted|]. split; [vm_compute; reflexivity|].
  exact (X5_at_most_30_per_window "10.0.0.1" times ∅ 61001 eq_refl Hsorted).
Defined.

(** ** Further properties of the routes *)


(** X7: the handlers never touch the limiter's map. After a request the map
    is what the limiter made of it, whether the request was denied, served
    from the cache, fetched upstream or failed: every admitted request counts
    against the window, also one that ends in an error. *)
Theorem X7_every_admitted_request_counts (up : Server.upstream)
    (req : Server.request) (w : Server.world) :
  Server.requestCounts (Server.serve up req w).2 =
    (RateLimiter.check (Server.ip req) (Server.now req) (Server.requestCounts w)).2.
Proof.
  destruct (RateLimiter.check (Server.ip req) (Server.now req) (Server.requestCounts w)).1
    eqn:Hverdict.
  - rewrite serve_admitted by done.
    destruct (truthy_opt (TtlCache.get (Server.cacheKey_of (Server.target req))
                            (Server.now req) (Server.cache w))) eqn:Hlookup.
    + by rewrite handler_hit.
    + rewrite handler_miss by done.
      by destruct (Server.miss_result up (Server.target req)).
  - by rewrite serve_denied.
Qed.

Section CacheKeys.



End CacheKeys.



(** ** Further properties of the candlestick transform *)

Section TransformShape.

Import Candlestick.

Lemma transform_returns_wf (chart : market_chart) (out : list point) :
  transform chart = Normal out →
  (length (prices chart) ≤ length (total_volumes chart))%nat ∧
  Forall (fun p => DateTime.validTime p.1 = true) (prices chart).
Proof.
  intros Hout. split.
  - destruct (Nat.le_gt_cases (length (prices chart)) (length (total_volumes chart)))
      as [Hle|Hshort]; [done|].
    destruct (transform_short_volumes chart Hshort) as (e & He & _). congruence.
  - apply Forall_lookup. intros i [t price] Hi. simpl.
    destruct (DateTime.validTime t) eqn:Hvalid; [done|].
    destruct (for_loop_reaches_throw (loop_body (prices chart) (total_volumes chart))
                (length (prices chart)) 0%nat [] i) as [e He].
    + apply lookup_lt_Some in Hi. lia.
    + intros acc. unfold loop_body. rewrite Hi.
      unfold DateTime.isoDate, DateTime.toISOString. rewrite Hvalid. simpl. by eauto.
    + unfold transform in Hout. congruence.
Qed.

(** Every point of the output, by its position. *)
Lemma transform_shape (chart : market_chart) (out : list point) :
  transform chart = Normal out →
  length out = (length (prices chart) - 1)%nat ∧
  ∀ k c, out !! k = Some c →
    ∃ t0 prevPrice t price tv vol,
      prices chart !! k = Some (t0, prevPrice) ∧
      prices chart !! S k = Some (t, price) ∧
      total_volumes chart !! S k = Some (tv, vol) ∧
      c = {| time := DateTime.isoDay (DateTime.Day t);
             open := prevPrice;
             high := Qmax prevPrice price;
             low := Qmin prevPrice price;
             close := price;
             volume := vol |}.
Proof.
  intros Hout. destruct (transform_returns_wf chart out Hout) as [Hlen Hvalid].
  destruct chart as [ps vs]. simpl in *.
  destruct (transform_points ps vs Hlen Hvalid) as (out' & Hout' & Hsize & Hat).
  assert (out' = out) as -> by congruence. split; [done|].
  intros k c Hk. assert (Hk' : (k < length out)%nat) by (by eapply lookup_lt_Some).
  destruct (Hat (S k)) as (c' & Hc' & t0 & prev & t & price & tv & vol & date & H); [lia|].
  destruct H as (H1 & H2 & H3 & H4 & ->).
  replace (S k - 1)%nat with k in * by lia.
  assert (c = {| time := date; open := prev; high := Qmax prev price;
                 low := Qmin prev price; close := price; volume := vol |}) as ->
    by congruence.
  exists t0, prev, t, price, tv, vol. repeat split; [done..|].
  rewrite Forall_forall in Hvalid.
  pose proof (Hvalid (t, price) (list_elem_of_lookup_2 _ _ _ H2)) as Ht.
  rewrite (isoDate_day t Ht) in H4. congruence.
Qed.

End TransformShape.

(** X9: when the transform returns. It returns an array exactly when the
    response has a volume entry for every price entry and every price timestamp
    is a valid date; in every other case it throws, and the request ends in the
    error reply. *)
Theorem X9_transform_returns_iff (chart : Candlestick.market_chart) :
  (∃ out, Candlestick.transform chart = Normal out) ↔
  (length (Candlestick.prices chart) ≤ length (Candlestick.total_volumes chart))%nat ∧
  Forall (fun p => DateTime.validTime p.1 = true) (Candlestick.prices chart).
Proof.
  split.
  - intros [out Hout]. by apply (transform_returns_wf chart out).
  - intros [Hlen Hvalid]. destruct chart as [ps vs].
    destruct (transform_points ps vs Hlen Hvalid) as (out & Hout & _). by exists out.
Qed.

(** X10: the candles chain, and their closes are the upstream prices. For
    every array the transform returns, the closes are the upstream prices
    without the first one, the opens are the upstream prices without the last
    one, and each candle opens at the close of the candle before it. *)
Theorem X10_candles_chain (chart : Candlestick.market_chart)
    (out : list Candlestick.point) :
  Candlestick.transform chart = Normal out →
  Prediction.closes out = (drop 1 (Candlestick.prices chart)).*2 ∧
  Candlestick.open <$> out =
    (take (length (Candlestick.prices chart) - 1) (Candlestick.prices chart)).*2 ∧
  ∀ k c c', out !! k = Some c → out !! S k = Some c' →
    Candlestick.open c' = Candlestick.close c.
Proof.
  intros Hout. destruct (transform_shape chart out Hout) as [Hsize Hat].
  split; [|split].
  - unfold Prediction.closes. apply list_eq. intros k.
    rewrite !list_lookup_fmap, lookup_drop.
    destruct (out !! k) as [c|] eqn:Hk.
    + destruct (Hat k c Hk) as (t0 & prev & t & price & tv & vol & _ & H2 & _ & ->).
      simpl. change (1 + k)%nat with (S k). by rewrite H2.
    + apply lookup_ge_None in Hk. simpl.
      rewrite (proj2 (lookup_ge_None _ _)); [done|]. lia.
  - apply list_eq. intros k. rewrite !list_lookup_fmap.
    destruct (out !! k) as [c|] eqn:Hk.
    + destruct (Hat k c Hk) as (t0 & prev & t & price & tv & vol & H1 & _ & _ & ->).
      apply lookup_lt_Some in Hk. rewrite lookup_take_lt by lia. by rewrite H1.
    + apply lookup_ge_None in Hk. simpl.
      rewrite (proj2 (lookup_ge_None _ _)); [done|]. rewrite length_take. lia.
  - intros k c c' Hk Hk'.
    destruct (Hat k c Hk) as (t0 & prev & t & price & tv & vol & _ & H2 & _ & ->).
    destruct (Hat (S k) c' Hk') as (t0' & prev' & t' & price' & tv' & vol' & H1' & _ & _ & ->).
    simpl. congruence.
Qed.

Lemma X10_candles_chain_witness :
  ∃ out,
    Candlestick.transform Scenario.three_days = Normal out ∧
    Prediction.closes out = [ 12%Q; 9%Q ] ∧
    Candlestick.open <$> out = [ 10%Q; 12%Q ].
Proof.
  eexists. split; [reflexivity|].
  destruct (X10_candles_chain Scenario.three_days _ eq_refl) as (Hcloses & Hopens & _).
  split; [exact Hcloses|exact Hopens].
Defined.

(** X11: every candle the transform returns is a well-formed bar: its low is
    at most its open and its close, its high at least both, and high and low
    are each one of the two. *)
Theorem X11_candles_well_formed (chart : Candlestick.market_chart)
    (out : list Candlestick.point) (c : Candlestick.point) :
  Candlestick.transform chart = Normal out →
  c ∈ out →
  (Candlestick.low c <= Candlestick.open c <= Candlestick.high c)%Q ∧
  (Candlestick.low c <= Candlestick.close c <= Candlestick.high c)%Q ∧
  (Candlestick.high c = Candlestick.open c ∨ Candlestick.high c = Candlestick.close c) ∧
  (Candlestick.low c = Candlestick.open c ∨ Candlestick.low c = Candlestick.close c).
Proof.
  intros Hout Hc. destruct (transform_shape chart out Hout) as [_ Hat].
  apply list_elem_of_lookup in Hc as [k Hk].
  destruct (Hat k c Hk) as (t0 & prev & t & price & tv & vol & _ & _ & _ & ->). simpl.
  repeat split.
  - apply Q.le_min_l.
  - apply Q.le_max_l.
  - apply Q.le_min_r.
  - apply Q.le_max_r.
  - unfold Qmax, GenericMinMax.gmax. destruct (prev ?= price)%Q; auto.
  - unfold Qmin, GenericMinMax.gmin. destruct (prev ?= price)%Q; auto.
Qed.

Lemma X11_candles_well_formed_witness :
  let c := Candlestick.mkPoint "1970-01-03" 12 12 9 9 80 in
  (Candlestick.low c <= Candlestick.open c <= Candlestick.high c)%Q ∧
  (Candlestick.low c <= Candlestick.close c <= Candlestick.high c)%Q ∧
  (Candlestick.high c = Candlestick.open c ∨ Candlestick.high c = Candlestick.close c) ∧
  (Candlestick.low c = Candlestick.open c ∨ Candlestick.low c = Candlestick.close c).
Proof.
  intros c.
  apply (X11_candles_well_formed Scenario.three_days
           [ Candlestick.mkPoint "1970-01-02" 10 12 10 12 150; c ] c);
    [reflexivity|]. apply list_elem_of_In. simpl. auto.
Defined.

(** ** The dashboard search *)

Section DashboardFacts.

Import Dashboard.

Lemma prefix_spec (a : string) : ∀ s : string,
  String.prefix a s = true ↔ ∃ post, s = a +:+ post.
Proof.
  induction a as [|c a IH]; intros s.
  - split; [intros _; by exists s|]. intros _. by destruct s.
  - destruct s as [|c' s]; simpl.
    + split; [done|]. by intros [post ?].
    + destruct (ascii_dec c c') as [<-|Hne].
      * rewrite IH. split; intros [post Hpost]; exists post; [by rewrite Hpost|].
        by injection Hpost.
      * split; [done|]. intros [post Hpost]. injection Hpost as ? ?. done.
Qed.

Lemma includes_spec (sub : string) : ∀ s : string,
  includes s sub = true ↔ ∃ pre post, s = pre +:+ sub +:+ post.
Proof.
  induction s as [|c s IH].
  - change (includes "" sub) with (if String.prefix sub "" then true else false).
    destruct (String.prefix sub "") eqn:Hp.
    + split; [intros _|done]. apply prefix_spec in Hp as [post Hpost]. by exists "", post.
    + split; [done|]. intros (pre & post & Heq).
      destruct pre; simpl in Heq; [|done].
      assert (String.prefix sub "" = true) by (apply prefix_spec; by exists post).
      congruence.
  - change (includes (String c s) sub)
      with (if String.prefix sub (String c s) then true else includes s sub).
    destruct (String.prefix sub (String c s)) eqn:Hp.
    + split; [intros _|done]. apply prefix_spec in Hp as [post Hpost]. by exists "", post.
    + rewrite IH. split.
      * intros (pre & post & ->). by exists (String c pre), post.
      * intros (pre & post & Heq). destruct pre as [|c' pre]; simpl in Heq.
        -- assert (String.prefix sub (String c s) = true)
             by (apply prefix_spec; by exists post).
           congruence.
        -- injection Heq as _ ->. by exists pre, post.
Qed.

Lemma toLowerCase_app (a b : string) :
  toLowerCase (a +:+ b) = toLowerCase a +:+ toLowerCase b.
Proof. induction a as [|c a IH]; simpl; [done|]. by rewrite IH. Qed.

Lemma append_assoc (a b c : string) : (a +:+ b) +:+ c = a +:+ b +:+ c.
Proof.
  induction a as [|x a IH]; [done|].
  change (String x ((a +:+ b) +:+ c) = String x (a +:+ b +:+ c)). by rewrite IH.
Qed.

Lemma includes_narrow (s before sub after : string) :
  includes s (before +:+ sub +:+ after) = true → includes s sub = true.
Proof.
  rewrite !includes_spec. intros (pre & post & ->).
  exists (pre +:+ before), (after +:+ post). by rewrite !append_assoc.
Qed.

Lemma matches_narrow (before term after : string) (crypto : Cryptocurrency) :
  matches (before +:+ term +:+ after) crypto = true → matches term crypto = true.
Proof.
  unfold matches. rewrite !toLowerCase_app, !orb_true_iff.
  intros [H|H]; [left|right]; by eapply includes_narrow.
Qed.

Lemma filter_sublist {A : Type} (P Q : A → bool) (l : list A) :
  (∀ x, P x = true → Q x = true) →
  List.filter P l `sublist_of` List.filter Q l.
Proof.
  intros HPQ. induction l as [|x l IH]; simpl; [done|].
  destruct (P x) eqn:HP.
  - rewrite (HPQ x HP). by apply sublist_skip.
  - destruct (Q x); [by apply sublist_cons|done].
Qed.

End DashboardFacts.

(** X12: with an empty search box the dashboard shows every entry of the
    list, in the order received. *)
Theorem X12_empty_search_shows_all (cryptocurrencies : list Dashboard.Cryptocurrency) :
  Dashboard.filteredCryptocurrencies cryptocurrencies "" = cryptocurrencies.
Proof.
  unfold Dashboard.filteredCryptocurrencies.
  induction cryptocurrencies as [|c l IH]; simpl; [done|].
  assert (Hc : Dashboard.matches "" c = true).
  { unfold Dashboard.matches. apply orb_true_iff. left. apply includes_spec.
    by exists "", (Dashboard.toLowerCase (Dashboard.name c)). }
  by rewrite Hc, IH.
Qed.

(** X13: typing more only narrows. Extending the search term, at its end
    or at its start, never brings in an entry that the shorter term did not
    show, and keeps the order. *)
Theorem X13_longer_search_narrows (cryptocurrencies : list Dashboard.Cryptocurrency)
    (before term after : string) :
  Dashboard.filteredCryptocurrencies cryptocurrencies (before +:+ term +:+ after)
    `sublist_of` Dashboard.filteredCryptocurrencies cryptocurrencies term.
Proof. apply filter_sublist. intros c. apply matches_narrow. Qed.


(** ** The training data of the predictor *)

Section PredictionFacts.

Import Prediction.

Lemma for_each_push {A B : Type} (f : nat → A) (g : nat → B) (count : nat) :
  ∀ (start : nat) (xs : list A) (ys : list B),
    for_each (fun '(xs, ys) i => (xs ++ [f i], ys ++ [g i])) start count (xs, ys) =
      (xs ++ (f <$> seq start count), ys ++ (g <$> seq start count)).
Proof.
  induction count as [|count IH]; intros start xs ys; simpl.
  - by rewrite !app_nil_r.
  - rewrite IH, <- !app_assoc. reflexivity.
Qed.

Lemma training_set_eq {A : Type} (l : list A) :
  training_set l =
    ((fun i => slice i (i + sequenceLength) l) <$> seq 0 (length l - sequenceLength),
     (fun i => l !! (i + sequenceLength)%nat) <$> seq 0 (length l - sequenceLength)).
Proof. unfold training_set. by rewrite for_each_push. Qed.

End PredictionFacts.

(** X15: the training set of the predictor. From n values the loop makes
    n - 5 sequences (none when n is 5 or less); sequence i is the five values
    from position i on, and target i is the value that follows them, so the
    targets are the values from the sixth on and none of them is undefined. *)
Theorem X15_training_windows {A : Type} (normalizedPrices : list A) :
  let sequences := (Prediction.training_set normalizedPrices).1 in
  let targets := (Prediction.training_set normalizedPrices).2 in
  length sequences = (length normalizedPrices - 5)%nat ∧
  targets = Some <$> drop 5 normalizedPrices ∧
  ∀ i s, sequences !! i = Some s →
    s = take 5 (drop i normalizedPrices) ∧ length s = 5%nat ∧
    targets !! i = Some (normalizedPrices !! (i + 5)%nat) ∧
    is_Some (normalizedPrices !! (i + 5)%nat).
Proof.
  intros sequences targets. unfold sequences, targets.
  rewrite training_set_eq. cbn [fst snd]. unfold Prediction.sequenceLength.
  set (n := length normalizedPrices). split; [|split].
  - by rewrite length_fmap, length_seq.
  - apply list_eq. intros i. rewrite !list_lookup_fmap, lookup_drop.
    destruct (decide (i < n - 5)%nat) as [Hi|Hi].
    + rewrite lookup_seq_lt by done. cbn [fmap option_fmap option_map].
      replace (0 + i + 5)%nat with (5 + i)%nat by lia.
      destruct (lookup_lt_is_Some_2 normalizedPrices (5 + i)) as [x Hx];
        [unfold n in Hi; lia|]. by rewrite Hx.
    + rewrite lookup_seq_ge by lia. cbn [fmap option_fmap option_map].
      rewrite (proj2 (lookup_ge_None _ _)); [done|]. unfold n in Hi. lia.
  - intros i s. rewrite !list_lookup_fmap.
    destruct (decide (i < n - 5)%nat) as [Hi|Hi].
    + rewrite lookup_seq_lt by done. cbn [fmap option_fmap option_map].
      replace (0 + i)%nat with i by lia. intros Hs. apply (inj Some) in Hs. subst s.
      unfold Prediction.slice. replace (i + 5 - i)%nat with 5%nat by lia.
      split; [done|]. split; [|split; [done|]].
      * rewrite length_take, length_drop. fold n. lia.
      * apply lookup_lt_is_Some_2. fold n. lia.
    + rewrite lookup_seq_ge by lia. done.
Qed.

Lemma X15_training_windows_witness :
  Prediction.training_set [ 1; 2; 3; 4; 5; 6; 7 ] =
    ([ [ 1; 2; 3; 4; 5 ]; [ 2; 3; 4; 5; 6 ] ], [ Some 6; Some 7 ]) ∧
  ∀ i s, (Prediction.training_set [ 1; 2; 3; 4; 5; 6; 7 ]).1 !! i = Some s →
    s = take 5 (drop i [ 1; 2; 3; 4; 5; 6; 7 ]) ∧ length s = 5%nat ∧
    (Prediction.training_set [ 1; 2; 3; 4; 5; 6; 7 ]).2 !! i
      = Some ([ 1; 2; 3; 4; 5; 6; 7 ] !! (i + 5)%nat) ∧
    is_Some ([ 1; 2; 3; 4; 5; 6; 7 ] !! (i + 5)%nat).
Proof.
  split; [reflexivity|].
  exact (proj2 (proj2 (X15_training_windows [ 1; 2; 3; 4; 5; 6; 7 ]))).
Defined.

(** X16: how much of a history answer reaches the network. Of the candles
    the transform returns for N price points the page keeps the closes of the
    last 30, which are the last min(30, N-1) upstream prices, and however these
    are rescaled value by value it trains on min(30, N-1) - 5 sequences: at
    most 25, and none at all for 6 price points or fewer. *)
Theorem X16_history_to_training_set (chart : Candlestick.market_chart)
    (out : list Candlestick.point) (normalize : Q → Q) :
  let N := length (Candlestick.prices chart) in
  let lastPrices := Prediction.lastPrices (Prediction.closes out) in
  Candlestick.transform chart = Normal out →
  lastPrices = drop (N - 1 - 30)%nat (drop 1 (Candlestick.prices chart)).*2 ∧
  length lastPrices = ((N - 1) `min` 30)%nat ∧
  length (Prediction.training_set (normalize <$> lastPrices)).1
    = ((N - 1) `min` 30 - 5)%nat.
Proof.
  intros N lastPrices Hout. unfold lastPrices, Prediction.lastPrices, Prediction.slice_last.
  destruct (transform_shape chart out Hout) as [Hsize _].
  assert (Hcloses : Prediction.closes out = (drop 1 (Candlestick.prices chart)).*2).
  { unfold Prediction.closes. apply list_eq. intros k.
    destruct (transform_shape chart out Hout) as [_ Hat].
    rewrite !list_lookup_fmap, lookup_drop.
    destruct (out !! k) as [c|] eqn:Hk.
    - destruct (Hat k c Hk) as (t0 & prev & t & price & tv & vol & _ & H2 & _ & ->).
      simpl. change (1 + k)%nat with (S k). by rewrite H2.
    - apply lookup_ge_None in Hk. simpl.
      rewrite (proj2 (lookup_ge_None _ _)); [done|]. fold N in Hsize. lia. }
  assert (Hlen : length (Prediction.closes out) = (N - 1)%nat).
  { unfold Prediction.closes. rewrite length_map. exact Hsize. }
  rewrite Hlen. split; [by rewrite Hcloses|].
  assert (Hlast : length (drop (N - 1 - 30)%nat (Prediction.closes out))
                  = ((N - 1) `min` 30)%nat).
  { rewrite length_drop, Hlen. lia. }
  split; [exact Hlast|].
  rewrite training_set_eq. cbn [fst].
  rewrite length_fmap, length_seq, length_fmap, Hlast. reflexivity.
Qed.

Lemma X16_history_to_training_set_witness :
  ∃ out,
    Candlestick.transform Scenario.three_days = Normal out ∧
    Prediction.lastPrices (Prediction.closes out) = [ 12%Q; 9%Q ] ∧
    length (Prediction.training_set
              ((fun p => p) <$> Prediction.lastPrices (Prediction.closes out))).1 = 0%nat.
Proof.
  eexists. split; [reflexivity|].
  destruct (X16_history_to_training_set Scenario.three_days _ (fun p => p) eq_refl)
    as (Hlast & _ & Htrain).
  split; [exact Hlast|exact Htrain].
Defined.

(** ** The detail page *)

Section DetailFacts.

Import Detail.

Lemma error_text_truthy (fallback : string) (e : js_error) :
  fallback ≠ "" → truthy (error_text fallback e) = true.
Proof.
  intros Hne. assert (Hfb : truthy (JStr fallback) = true).
  { simpl. destruct (String.eqb_spec fallback ""); done. }
  unfold error_text. destruct (response e) as [r|]; [|done].
  destruct (prop "error" (data r)) as [text|]; [|done].
  by destruct (truthy text) eqn:Ht.
Qed.



End DetailFacts.



(** X18: a failed chart request takes the page down. Once the chart request
    has failed the page shows the alert with the chart error in place of the
    coin, whether the coin data arrived before or after the failure; until the
    coin request ends it keeps showing the spinner. *)
Theorem X18_chart_failure_replaces_page (coin : json) (e : js_error) :
  let loaded := Detail.Answered (Server.res_json coin) in
  let alert := Detail.ErrorAlert (Detail.error_text "Failed to fetch chart data" e) in
  Detail.render (Detail.fetchChartData_catch e (Detail.fetchCryptoData loaded Detail.initial))
    = alert ∧
  Detail.render (Detail.fetchCryptoData loaded (Detail.fetchChartData_catch e Detail.initial))
    = alert ∧
  Detail.render (Detail.fetchChartData_catch e Detail.initial) = Detail.Spinner.
Proof.
  intros loaded alert.
  pose proof (error_text_truthy "Failed to fetch chart data" e ltac:(done)) as Ht.
  unfold Detail.render, Detail.fetchChartData_catch, Detail.fetchCryptoData. simpl.
  by rewrite Ht.
Qed.

(** X19: the timeframe is always one of the five buttons. Starting from
    ["30"], whatever sequence of button values and [null]s (a click on the
    selected button) the group hands to [onChange], the timeframe stays one of
    7, 30, 90, 180 and 365; a [null] changes nothing. *)
Theorem X19_timeframe_stays_a_button (events : list (option string)) :
  Forall (fun v => v = None ∨ ∃ b, v = Some b ∧ b ∈ Detail.buttons) events →
  Detail.timeframe (foldl (fun s v => Detail.onChange v s) Detail.initial events)
    ∈ Detail.buttons.
Proof.
  assert (Hgen : ∀ s, Detail.timeframe s ∈ Detail.buttons →
            Forall (fun v => v = None ∨ ∃ b, v = Some b ∧ b ∈ Detail.buttons) events →
            Detail.timeframe (foldl (fun s v => Detail.onChange v s) s events)
              ∈ Detail.buttons).
  { induction events as [|v events IH]; intros s Hs Hall; [done|].
    apply Forall_cons in Hall as [Hv Hall]. simpl. apply IH; [|done].
    destruct Hv as [->|(b & -> & Hb)]; [done|]. unfold Detail.onChange.
    by destruct (String.eqb b ""). }
  apply Hgen. apply list_elem_of_In. simpl. auto.
Qed.

Lemma X19_timeframe_stays_a_button_witness :
  let events := [ Some "7"; None; Some "365"; None ] in
  Forall (fun v => v = None ∨ ∃ b, v = Some b ∧ b ∈ Detail.buttons) events ∧
  Detail.timeframe (foldl (fun s v => Detail.onChange v s) Detail.initial events) = "365" ∧
  "365" ∈ Detail.buttons.
Proof.
  intros events.
  assert (Hall : Forall (fun v => v = None ∨ ∃ b, v = Some b ∧ b ∈ Detail.buttons) events).
  { assert (H7 : "7" ∈ Detail.buttons) by (apply list_elem_of_In; simpl; auto).
    assert (H365 : "365" ∈ Detail.buttons) by (apply list_elem_of_In; simpl; auto 10).
    unfold events. apply Forall_cons. split; [right; by exists "7"|].
    apply Forall_cons. split; [by left|].
    apply Forall_cons. split; [right; by exists "365"|].
    apply Forall_cons. split; [by left|]. apply Forall_nil_2. }
  split; [exact Hall|]. split; [reflexivity|].
  exact (X19_timeframe_stays_a_button events Hall).
Defined.


